(** * Metagenomic classification pipeline: model and properties

    A shallow embedding of [metagenomic_classifier.py]: sample discovery and
    pairing, assembly of the external-tool command lines, the per-sample
    pipeline with its exception boundary, report parsing, and the CSV that
    [main] builds one sample at a time, from the checks of the
    directories given on the command line on. Argument parsing, the
    creation of the output directory and the set-up of the logger are
    left out: a run is taken from the point where the output directory
    and the log are in place. Of the log only the [Failed to process]
    lines are kept.

    Conventions of the model.
    - Python [str] is [string], a character being a code point below
      256; the path and string helpers below follow [os.path] and [str].
    - A [dict] is an association list in insertion order; assigning to an
      existing key keeps its position and replaces its value, as in Python.
    - A text file is the list of its lines, a line being the row of its
      fields; a zero-length file is the empty list, an empty line the row
      of one empty field. Quotation marks in fields are not interpreted.
    - [read_csv] gives every column a dtype from its fields; a frame holds
      for every value the text that [to_csv] writes for it.
    - Exceptions are values of [exn]; a computation that may raise returns
      a [result]. *)

From Stdlib Require Import ZArith Ascii String.
From stdpp Require Import gmap strings list fin_maps pretty.

(** ** Strings and paths *)

Module Str.

(** [s.startswith(p)] *)
Definition startswith (p s : string) : bool := String.prefix p s.

(** [sub in s] *)
Fixpoint contains (sub s : string) : bool :=
  match s with
  | EmptyString => startswith sub s
  | String _ t => startswith sub s || contains sub t
  end.

(** [s.split(sep)[0]], for a non-empty separator *)
Fixpoint split_first (sep s : string) : string :=
  match s with
  | EmptyString => EmptyString
  | String c t =>
      if startswith sep s then EmptyString else String c (split_first sep t)
  end.

(** [s.replace(old, new)] for a non-empty [old]: occurrences are replaced
    from the left and do not overlap. [skip] counts the characters of an
    occurrence already replaced that are still to be passed over. *)
Fixpoint replace_from (old new : string) (skip : nat) (s : string) : string :=
  match s with
  | EmptyString => EmptyString
  | String c t =>
      match skip with
      | S k => replace_from old new k t
      | O =>
          if startswith old s
          then new +:+ replace_from old new (String.length old - 1) t
          else String c (replace_from old new 0 t)
      end
  end.

Definition replace (old new s : string) : string := replace_from old new 0 s.

(** [s.endswith(suf)] *)
Fixpoint endswith (suf s : string) : bool :=
  String.eqb s suf ||
  match s with
  | EmptyString => false
  | String _ t => endswith suf t
  end.

(** [str.isspace] on a character below 256: the ASCII white space, the
    separators 28 to 31, NEL (133) and the no-break space (160). *)
Definition isspace (c : ascii) : bool :=
  let n := nat_of_ascii c in
  ((9 <=? n) && (n <=? 13)) || ((28 <=? n) && (n <=? 32))
  || (n =? 133) || (n =? 160).

Fixpoint lstrip (s : string) : string :=
  match s with
  | EmptyString => EmptyString
  | String c t => if isspace c then lstrip t else s
  end.

Fixpoint rstrip (s : string) : string :=
  match s with
  | EmptyString => EmptyString
  | String c t =>
      match rstrip t with
      | EmptyString => if isspace c then EmptyString else String c EmptyString
      | r => String c r
      end
  end.

(** [s.strip()] *)
Definition strip (s : string) : string := rstrip (lstrip s).

(** [sep.join(l)] *)
Definition join (sep : string) (l : list string) : string := String.concat sep l.

(** [s.split("/")] *)
Fixpoint split_slash (s : string) : list string :=
  match s with
  | EmptyString => [EmptyString]
  | String c t =>
      if Ascii.eqb c "/"%char then EmptyString :: split_slash t
      else match split_slash t with
           | [] => [String c EmptyString]
           | w :: ws => String c w :: ws
           end
  end.

(** [Some r] when [s = p ++ r] *)
Fixpoint strip_prefix (p s : string) : option string :=
  match p, s with
  | EmptyString, _ => Some s
  | String a p', String b s' => if Ascii.eqb a b then strip_prefix p' s' else None
  | String _ _, EmptyString => None
  end.

End Str.

Module Path.

(** [os.path.basename]: what follows the last slash *)
Fixpoint basename (p : string) : string :=
  match p with
  | EmptyString => EmptyString
  | String c t =>
      if Str.contains "/" t then basename t
      else if Ascii.eqb c "/"%char then t else p
  end.

(** [os.path.dirname] with its trailing slash kept: [p = dir_part p ++ basename p] *)
Fixpoint dir_part (p : string) : string :=
  match p with
  | EmptyString => EmptyString
  | String c t =>
      if Str.contains "/" t then String c (dir_part t)
      else if Ascii.eqb c "/"%char then String c EmptyString else EmptyString
  end.

(** Split a file name at its last dot: [(root, ext)] with [ext] starting
    with the dot, or [None] when there is no dot. *)
Fixpoint split_last_dot (s : string) : option (string * string) :=
  match s with
  | EmptyString => None
  | String c t =>
      match split_last_dot t with
      | Some (r, e) => Some (String c r, e)
      | None => if Ascii.eqb c "."%char then Some (EmptyString, s) else None
      end
  end.

Fixpoint all_dots (s : string) : bool :=
  match s with
  | EmptyString => true
  | String c t => Ascii.eqb c "."%char && all_dots t
  end.

(** [os.path.splitext]: the extension starts at the last dot of the last
    component; leading dots of that component do not start an extension. *)
Definition splitext (p : string) : string * string :=
  match split_last_dot (basename p) with
  | Some (r, e) =>
      if all_dots r then (p, EmptyString) else (dir_part p +:+ r, e)
  | None => (p, EmptyString)
  end.

(** [os.path.join(a, b)] for a relative [b] *)
Definition join (a b : string) : string :=
  if String.eqb a "" then b
  else if Str.endswith "/" a then a +:+ b
  else a +:+ "/" +:+ b.

End Path.

(** ** Python dictionaries, in insertion order *)

Module Dict.

Abbreviation t V := (list (string * V)) (only parsing).

(** [d[k] = v] *)
Fixpoint set {V} (d : t V) (k : string) (v : V) : t V :=
  match d with
  | [] => [(k, v)]
  | (k', v') :: d' =>
      if String.eqb k' k then (k', v) :: d' else (k', v') :: set d' k v
  end.

(** [d.get(k)] *)
Fixpoint get {V} (d : t V) (k : string) : option V :=
  match d with
  | [] => None
  | (k', v') :: d' => if String.eqb k' k then Some v' else get d' k
  end.

Definition keys {V} (d : t V) : list string := d.*1.
Definition values {V} (d : t V) : list V := d.*2.

End Dict.

(** ** Exceptions *)

Inductive exn : Type :=
  | FileNotFoundError (msg : string)
  | CalledProcessError (returncode : Z) (cmd : string)
  | RuntimeError (msg : string)
  | KeyError (key : string)
  | EmptyDataError
  | ParserError (msg : string)
  | AttributeError (msg : string)
  | NotADirectoryError (msg : string)
  | UnicodeDecodeError (msg : string)
  | OSError (msg : string).

Inductive result (A : Type) : Type :=
  | Ok (a : A)
  | Raise (e : exn).
Arguments Ok {A} a.
Arguments Raise {A} e.

(** ** Sample discovery *)

Module Discovery.

(** The files present, by path, in the order a directory scan yields them. *)
Abbreviation listing := (list string) (only parsing).

(** [os.path.exists] *)
Definition exists_ (fs : listing) (p : string) : bool := bool_decide (p ∈ fs).

Definition hidden (name : string) : bool := Str.startswith "." name.

(** One path against [input_dir/**/*.fastq*] (recursive), for an
    [input_dir] that [glob] takes literally, that is, without the
    characters [*], [?] and [[]: the path lies below [input_dir], no
    component below it is empty or hidden, and the file name contains
    [.fastq]. *)
Definition glob_match (input_dir p : string) : bool :=
  match Str.strip_prefix (Path.join input_dir "") p with
  | None => false
  | Some rel =>
      let parts := Str.split_slash rel in
      forallb (fun c => negb (String.eqb c "") && negb (hidden c)) parts
      && Str.contains ".fastq" (List.last parts "")
  end.

(** [glob.glob(os.path.join(input_dir, "**", "*.fastq*"), recursive=True)] *)
Definition glob_fastq (fs : listing) (input_dir : string) : list string :=
  List.filter (glob_match input_dir) fs.

Definition is_r1 (f : string) : bool := Str.contains "_R1" (Path.basename f).

(** Body of the loop over the read-1 files. *)
Definition register_r1 (fs : listing)
    (samples : Dict.t (list string)) (r1 : string) : Dict.t (list string) :=
  let sample_id := Str.split_first "_R1" (Path.basename r1) in
  let r2 := Str.replace "_R1" "_R2" r1 in
  if exists_ fs r2
  then Dict.set samples sample_id [r1; r2]
  else Dict.set samples sample_id [r1].

Definition single_id (f : string) : string :=
  (Path.splitext (Path.splitext (Path.basename f)).1).1.

(** Body of the loop over the files left unpaired. *)
Definition register_single
    (samples : Dict.t (list string)) (f : string) : Dict.t (list string) :=
  Dict.set samples (single_id f) [f].

Definition pair_r1_files (fs : listing) (fastq_files : list string)
    : Dict.t (list string) :=
  foldl (register_r1 fs) [] (List.filter is_r1 fastq_files).

Definition unpaired_files (samples : Dict.t (list string))
    (fastq_files : list string) : list string :=
  let used_files := concat (Dict.values samples) in
  List.filter (fun f => negb (bool_decide (f ∈ used_files))) fastq_files.

Definition discover_samples (fs : listing) (input_dir : string)
    : result (Dict.t (list string)) :=
  let fastq_files := glob_fastq fs input_dir in
  match fastq_files with
  | [] => Raise (FileNotFoundError ("No FASTQ files found in " +:+ input_dir))
  | _ =>
      let samples := pair_r1_files fs fastq_files in
      let unpaired := unpaired_files samples fastq_files in
      Ok (foldl register_single samples unpaired)
  end.

End Discovery.

(** ** Files, processes and the state of a run *)

(** A row of a text file: its fields. A file: its rows. *)
Abbreviation row := (list string) (only parsing).
Abbreviation file := (list (list string)) (only parsing).

(** The arguments of one [subprocess.run(args, shell=...)] call: [args] is
    either one command string or a sequence of argument strings. *)
Record launch : Type := Launch {
  launch_args : string + list string;
  launch_shell : bool
}.

(** What a run can observe and change. [files] holds the artifacts under
    [/tmp]; [calls] records the processes launched so far; [csv] is the
    content of [microbes_abundances.csv], which the external tools are not
    given; [first] and [success] are the variables of [main]; [failed]
    records the [Failed to process] log lines; [dirs] holds the
    directories that exist, by the path they are named with. *)
Record state : Type := State {
  files : gmap string file;
  calls : list launch;
  csv : file;
  first : bool;
  success : nat;
  failed : list (string * exn);
  dirs : list string
}.

Definition set_files (f : gmap string file → gmap string file) (s : state) : state :=
  State (f (files s)) (calls s) (csv s) (first s) (success s) (failed s) (dirs s).
Definition set_calls (f : list launch → list launch) (s : state) : state :=
  State (files s) (f (calls s)) (csv s) (first s) (success s) (failed s) (dirs s).
Definition set_csv (f : file → file) (s : state) : state :=
  State (files s) (calls s) (f (csv s)) (first s) (success s) (failed s) (dirs s).
Definition set_first (b : bool) (s : state) : state :=
  State (files s) (calls s) (csv s) b (success s) (failed s) (dirs s).
Definition set_success (f : nat → nat) (s : state) : state :=
  State (files s) (calls s) (csv s) (first s) (f (success s)) (failed s) (dirs s).
Definition set_failed (f : list (string * exn) → list (string * exn)) (s : state) : state :=
  State (files s) (calls s) (csv s) (first s) (success s) (f (failed s)) (dirs s).

(** Computations that change the state and may raise; what was changed
    before an exception stays changed. *)
Definition M (A : Type) : Type := state → result A * state.

Definition raise {A} (e : exn) : M A := fun s => (Raise e, s).

Definition ret {A} (a : A) : M A := fun s => (Ok a, s).
Definition bind {A B} (m : M A) (k : A → M B) : M B :=
  fun s =>
    match m s with
    | (Ok a, s') => k a s'
    | (Raise e, s') => (Raise e, s')
    end.

Declare Scope py_scope.
Delimit Scope py_scope with py.
Notation "x ← y ; z" := (bind y (fun x => z))
  (at level 20, y at level 100, z at level 200, only parsing) : py_scope.
Notation "x ;; z" := (bind x (fun _ => z))
  (at level 100, z at level 200, only parsing, right associativity) : py_scope.
Open Scope py_scope.

Definition pass : M unit := fun s => (Ok tt, s).
Definition get_state : M state := fun s => (Ok s, s).
Definition modify (f : state → state) : M unit := fun s => (Ok tt, f s).

(** [try: m  except Exception as e: h e] *)
Definition try_except (m : M unit) (h : exn → M unit) : M unit :=
  fun s =>
    match m s with
    | (Ok tt, s') => (Ok tt, s')
    | (Raise e, s') => h e s'
    end.

(** ** Data frames *)

Module Frame.

(** A frame as it is written: column labels and rows of cells, every row
    as wide as the labels. A cell holds the text that [to_csv] writes for
    its value; a missing value (NaN) is the empty text. *)
Record t : Type := Make { columns : list string; rows : list row }.

Definition pad (n : nat) (r : row) : row := take n (r ++ replicate n "").

(** The position of the first column with a label. *)
Fixpoint position (label : string) (cols : list string) : option nat :=
  match cols with
  | [] => None
  | c :: cols' => if String.eqb c label then Some 0 else S <$> position label cols'
  end.

Definition cell (r : row) (i : nat) : string := default "" (r !! i).

(** *** What [read_csv] makes of a field *)

(** The fields read as a missing value. *)
Definition na_values : list string :=
  [ ""; "#N/A"; "#N/A N/A"; "#NA"; "-1.#IND"; "-1.#QNAN"; "-NaN"; "-nan";
    "1.#IND"; "1.#QNAN"; "<NA>"; "N/A"; "NA"; "NULL"; "NaN"; "None"; "n/a";
    "nan"; "null" ].

Definition is_na (s : string) : bool := bool_decide (s ∈ na_values).

(** The white space and the digits of the C locale, which the number
    readers of the tokenizer use. *)
Definition is_space (c : ascii) : bool :=
  let n := nat_of_ascii c in (n =? 32) || ((9 <=? n) && (n <=? 13)).

Definition is_digit (c : ascii) : bool :=
  (48 <=? nat_of_ascii c) && (nat_of_ascii c <=? 57).

Fixpoint skip_spaces (s : string) : string :=
  match s with
  | EmptyString => EmptyString
  | String c t => if is_space c then skip_spaces t else s
  end.

(** The digits a string starts with, and what follows them. *)
Fixpoint digits_of (s : string) : string * string :=
  match s with
  | EmptyString => (EmptyString, EmptyString)
  | String c t =>
      if is_digit c
      then let '(ds, rest) := digits_of t in (String c ds, rest)
      else (EmptyString, s)
  end.

(** The number that a string of digits writes. *)
Fixpoint to_N_from (acc : N) (ds : string) : N :=
  match ds with
  | EmptyString => acc
  | String c t => to_N_from (10 * acc + N.of_nat (nat_of_ascii c - 48)) t
  end.

Definition to_N (ds : string) : N := to_N_from 0 ds.

Definition sign_of (s : string) : bool * string :=
  match s with
  | String c t =>
      if Ascii.eqb c "-"%char then (true, t)
      else if Ascii.eqb c "+"%char then (false, t)
      else (false, s)
  | EmptyString => (false, s)
  end.

(** What follows an exponent, [e] or [E] with an optional sign and at
    least one digit; the string itself when it starts with no exponent. *)
Definition after_exponent (s : string) : string :=
  match s with
  | String c t =>
      if Ascii.eqb c "e"%char || Ascii.eqb c "E"%char
      then let '(ds, rest) := digits_of (sign_of t).2 in
           if String.eqb ds "" then s else rest
      else s
  | EmptyString => s
  end.

Definition lower_char (c : ascii) : ascii :=
  let n := nat_of_ascii c in
  if (65 <=? n) && (n <=? 90) then ascii_of_nat (n + 32) else c.

Fixpoint lower (s : string) : string :=
  match s with
  | EmptyString => EmptyString
  | String c t => String (lower_char c) (lower t)
  end.

(** What the reader takes a field for. An integer keeps its sign and its
    magnitude. *)
Inductive token : Type :=
  | Missing
  | Integer (negative : bool) (magnitude : N)
  | Floating
  | Truth (b : bool)
  | Text.

Definition fits_int64 (negative : bool) (n : N) : bool :=
  if negative then (n <=? 2 ^ 63)%N else (n <? 2 ^ 63)%N.

(** A field read as a number: optional white space, an optional sign,
    digits with an optional decimal point among them and an optional
    exponent after them, optional white space. Without point and
    exponent it is an integer. An integer beyond 64 bits is outside the
    model, it is taken for a float here. *)
Definition number (s : string) : option token :=
  let '(negative, s2) := sign_of (skip_spaces s) in
  let '(d1, s3) := digits_of s2 in
  if negb (String.eqb d1 "") && String.eqb (skip_spaces s3) ""
  then Some (if fits_int64 negative (to_N d1) then Integer negative (to_N d1)
             else Floating)
  else
    let '(d2, s4) :=
      match s3 with
      | String c t => if Ascii.eqb c "."%char then digits_of t else (EmptyString, s3)
      | EmptyString => (EmptyString, s3)
      end in
    if String.eqb d1 "" && String.eqb d2 ""
    then None
    else if String.eqb (skip_spaces (after_exponent s4)) "" then Some Floating
    else None.

Definition infinities : list string :=
  ["inf"; "+inf"; "-inf"; "infinity"; "+infinity"; "-infinity"].

Definition kind (s : string) : token :=
  if is_na s then Missing
  else match number s with
       | Some t => t
       | None =>
           if bool_decide (lower s ∈ infinities) then Floating
           else if bool_decide (s ∈ ["True"; "TRUE"; "true"]) then Truth true
           else if bool_decide (s ∈ ["False"; "FALSE"; "false"]) then Truth false
           else Text
       end.

(** *** The dtype of a column *)

Inductive dtype : Type := Object | Int64 | Float64 | Boolean.

Definition is_integer (k : token) : bool :=
  match k with Integer _ _ => true | _ => false end.

Definition is_numeric (k : token) : bool :=
  match k with Integer _ _ | Floating | Missing => true | _ => false end.

Definition is_truth (k : token) : bool :=
  match k with Truth _ => true | _ => false end.

(** The reader tries the dtypes in this order on the fields of a column:
    integers when every field is one, floats when every field is a number
    or missing, truth values, and text otherwise. A column without rows
    is a column of text. *)
Definition infer (fields : list string) : dtype :=
  match fields with
  | [] => Object
  | _ =>
      if forallb (fun s => is_integer (kind s)) fields then Int64
      else if forallb (fun s => is_numeric (kind s)) fields then Float64
      else if forallb (fun s => is_truth (kind s)) fields then Boolean
      else Object
  end.

(** A field of a text column: itself, or missing. *)
Definition text (s : string) : string := if is_na s then "" else s.

(** What [to_csv] writes for a field read in a column of a dtype: an
    integer in decimal, without sign or leading zeros of its own; in a
    float column, an integer below 2^53 with [.0] after it; a truth value
    as [True] or [False]; text as it is. What is written for the other
    floats is outside the model: the field is kept as read. *)
Definition written (d : dtype) (s : string) : string :=
  match d, kind s with
  | Int64, Integer negative n =>
      (if negative && negb (n =? 0)%N then "-" else "") +:+ pretty n
  | Float64, Integer negative n =>
      if (n <? 2 ^ 53)%N
      then (if negative then "-" else "") +:+ pretty n +:+ ".0"
      else s
  | Float64, Missing => ""
  | Boolean, Truth b => if b then "True" else "False"
  | Object, _ => text s
  | _, _ => s
  end.

(** *** Frames as they are read *)

(** A frame with the dtype of each of its columns. *)
Record typed : Type := Typed { frame : t; dtypes : list dtype }.

Definition dtype_at (df : typed) (i : nat) : dtype := default Object (dtypes df !! i).

(** An empty line, which the reader skips. *)
Definition blank (r : row) : bool :=
  match r with
  | [] => true
  | [x] => String.eqb x ""
  | _ => false
  end.

Definition column (i : nat) (body : list row) : list string :=
  (fun r => cell r i) <$> body.

(** The rows [body] under [labels]: every column gets its dtype from all
    its fields, a short row counting as missing values at its end. When
    the first row is wider than the labels, the fields in excess at its
    left are an index and belong to no column; a later row wider than
    the first fails the reader. *)
Definition read_rows (labels : list string) (body : list row) : result typed :=
  let n := length labels in
  let w := match body with r :: _ => Nat.max n (length r) | [] => n end in
  if forallb (fun r => (length r <=? w)%nat) body
  then
    let data := (fun r => drop (w - n) (pad w r)) <$> body in
    let ds := (fun i => infer (column i data)) <$> seq 0 n in
    Ok (Typed (Make labels ((fun r => zip_with written ds r) <$> data)) ds)
  else Raise (ParserError "Error tokenizing data").

(** [pd.read_csv(path, sep="\t", header=None, names=names)] on the rows
    of the file. A file without rows gives a frame without rows. *)
Definition read_csv_names (names : list string) (f : file) : result typed :=
  read_rows names (List.filter (fun r => negb (blank r)) f).

(** [pd.read_csv(path, sep="\t")]: the first row that is not empty holds
    the labels. A file without such a row raises [EmptyDataError]. *)
Definition read_csv_header (f : file) : result typed :=
  match List.filter (fun r => negb (blank r)) f with
  | [] => Raise EmptyDataError
  | header :: body => read_rows header body
  end.

(** [df[labels]]: the columns with these labels, in this order. *)
Fixpoint positions (labels cols : list string) : result (list nat) :=
  match labels with
  | [] => Ok []
  | l :: ls =>
      match position l cols with
      | None => Raise (KeyError l)
      | Some i =>
          match positions ls cols with
          | Ok is_ => Ok (i :: is_)
          | Raise e => Raise e
          end
      end
  end.

Definition select (labels : list string) (df : typed) : result typed :=
  match positions labels (columns (frame df)) with
  | Ok is_ =>
      Ok (Typed (Make labels ((fun r => cell r <$> is_) <$> rows (frame df)))
                (dtype_at df <$> is_))
  | Raise e => Raise e
  end.

(** [df.rename(columns={old: new})] *)
Definition rename (old new : string) (df : typed) : typed :=
  Typed (Make ((fun c => if String.eqb c old then new else c) <$> columns (frame df))
              (rows (frame df)))
        (dtypes df).

(** [df[df[label] == value]] for a text [value], on a frame as read: in
    a column of text the rows whose field is [value], a missing field
    being equal to nothing; in a column of another dtype no row. *)
Definition where_eq (label value : string) (df : typed) : result typed :=
  match position label (columns (frame df)) with
  | None => Raise (KeyError label)
  | Some i =>
      let keep (r : row) :=
        match dtype_at df i with
        | Object => String.eqb (cell r i) value && negb (String.eqb value "")
        | _ => false
        end in
      Ok (Typed (Make (columns (frame df)) (List.filter keep (rows (frame df))))
                (dtypes df))
  end.

(** [df[label] = df[label].str.strip()]: the [.str] accessor is there
    for a column of text only; a missing value stays missing. *)
Definition strip_column (label : string) (df : typed) : result typed :=
  match position label (columns (frame df)) with
  | None => Raise (KeyError label)
  | Some i =>
      match dtype_at df i with
      | Object =>
          Ok (Typed (Make (columns (frame df))
                          ((fun r => <[i := Str.strip (cell r i)]> r) <$> rows (frame df)))
                    (dtypes df))
      | _ => Raise (AttributeError "Can only use .str accessor with string values!")
      end
  end.

(** [df.set_index(index)[value].to_frame().T]: one row, labelled by the
    cells of column [index], holding the cells of column [value]. *)
Definition transpose_series (index value : string) (df : typed) : result t :=
  let cols := columns (frame df) in
  match position index cols with
  | None => Raise (KeyError index)
  | Some i =>
      match position value (List.filter (fun c => negb (String.eqb c index)) cols),
            position value cols with
      | Some _, Some j =>
          Ok (Make ((fun r => cell r i) <$> rows (frame df))
                   [(fun r => cell r j) <$> rows (frame df)])
      | _, _ => Raise (KeyError value)
      end
  end.

(** [df[label] = value] with a scalar: an existing label has its cells
    replaced in place, a new label is added as the last column. *)
Definition assign (label value : string) (df : t) : t :=
  if bool_decide (label ∈ columns df)
  then Make (columns df)
         ((fun r => zip_with (fun c x => if String.eqb c label then value else x) (columns df) r) <$> rows df)
  else Make (columns df ++ [label]) ((fun r : row => r ++ [value]) <$> rows df).

(** The rows [df.to_csv(path, mode="a", index=False, header=header)] appends. *)
Definition to_csv_rows (header : bool) (df : t) : file :=
  (if header then [columns df] else []) ++ rows df.

End Frame.

(** ** The pipeline *)

Record args : Type := Args {
  input_dir : string;
  output_dir : string;
  kraken_db : string;
  threads : Z;
  use_bracken : bool;
  read_length : Z
}.

Section Pipeline.

(** The operating system's side of [subprocess.run]: what launching a
    process does to the files, and either the exit status of the process
    or the exception that [subprocess.run] itself raises, as it does when
    the command cannot be started ([OSError]) or when the captured output
    is not valid text ([UnicodeDecodeError]). *)
Variable subprocess_run : launch → gmap string file → result Z * gmap string file.

(** [os.path.exists], [os.path.getsize] and [os.remove] on the artifacts. *)
Definition path_exists (p : string) : M bool :=
  s ← get_state; ret (bool_decide (is_Some (files s !! p))).

Definition getsize_is_zero (p : string) : M bool :=
  s ← get_state;
  match files s !! p with
  | Some f => ret (bool_decide (f = []))
  | None => raise (FileNotFoundError p)
  end.

Definition os_remove (p : string) : M unit :=
  s ← get_state;
  match files s !! p with
  | Some _ => modify (set_files (delete p))
  | None => raise (FileNotFoundError p)
  end.

Definition read_file (p : string) : M file :=
  s ← get_state;
  match files s !! p with
  | Some f => ret f
  | None => raise (FileNotFoundError p)
  end.

Definition lift {A} (r : result A) : M A :=
  match r with
  | Ok a => ret a
  | Raise e => raise e
  end.

(** [run_cmd(cmd, logger, check)]: the command string goes to
    [subprocess.run] with [shell=True]; an exception of [subprocess.run]
    is not caught here. Only the exit status is kept of the triple
    returned, the callers use nothing of it. *)
Definition run_cmd (cmd : string) (check : bool) : M Z :=
  s ← get_state;
  let l := Launch (inl cmd) true in
  let '(result, fs) := subprocess_run l (files s) in
  modify (set_calls (fun c => c ++ [l]));;
  modify (set_files (fun _ => fs));;
  returncode ← lift result;
  if check && negb (returncode =? 0)%Z
  then raise (CalledProcessError returncode cmd)
  else ret returncode.

Definition kraken2_report (sample_id : string) : string :=
  "/tmp/" +:+ sample_id +:+ ".kraken2.report".
Definition kraken2_output (sample_id : string) : string :=
  "/tmp/" +:+ sample_id +:+ ".kraken2.out".

Definition quoted (s : string) : string := "'" +:+ s +:+ "'".

(** The list [cmd] of [run_kraken2] before it is joined. *)
Definition kraken2_cmd (sample_id : string) (fastq_files : list string)
    (db_path : string) (threads : Z) : list string :=
  let is_paired := bool_decide (length fastq_files = 2) in
  let is_gz := existsb (Str.endswith ".gz") fastq_files in
  [ "kraken2";
    "--db " +:+ quoted db_path;
    "--threads " +:+ pretty threads;
    "--use-names";
    "--report-zero-counts";
    "--memory-mapping";
    "--report " +:+ quoted (kraken2_report sample_id);
    "--output " +:+ quoted (kraken2_output sample_id) ]
  ++ (if is_paired then ["--paired"] else [])
  ++ (if is_gz then ["--gzip-compressed"] else [])
  ++ (quoted <$> fastq_files).

Definition run_kraken2 (sample_id : string) (fastq_files : list string)
    (db_path : string) (threads : Z) : M string :=
  let report := kraken2_report sample_id in
  let output := kraken2_output sample_id in
  run_cmd (Str.join " " (kraken2_cmd sample_id fastq_files db_path threads)) true;;
  present ← path_exists report;
  empty ← (if present then getsize_is_zero report else ret true);
  if empty
  then raise (RuntimeError ("Kraken2 produced empty report for " +:+ sample_id))
  else
    out ← path_exists output;
    (if out then os_remove output else pass);;
    ret report.

Definition bracken_cmd (kraken_report db_path : string) (read_len : Z)
    (level : string) : string :=
  let bracken_out := Str.replace ".kraken2.report" ".bracken" kraken_report in
  "bracken -d " +:+ quoted db_path +:+ " "
  +:+ "-i " +:+ quoted kraken_report +:+ " "
  +:+ "-o " +:+ quoted bracken_out +:+ " "
  +:+ "-r " +:+ pretty read_len +:+ " "
  +:+ "-l " +:+ level.

Definition run_bracken (kraken_report db_path : string) (read_len : Z)
    (level : string) : M string :=
  let bracken_out := Str.replace ".kraken2.report" ".bracken" kraken_report in
  run_cmd (bracken_cmd kraken_report db_path read_len level) true;;
  present ← path_exists bracken_out;
  if present then ret bracken_out
  else raise (RuntimeError "Bracken failed to produce output").

Definition kraken_names : list string :=
  ["perc"; "reads_rooted"; "reads_direct"; "rank"; "taxid"; "name"].

(** [parse_species_abundance] on the content of the report. *)
Definition parse_report (use_bracken : bool) (f : file) : result Frame.typed :=
  match
    (if use_bracken then
       match Frame.read_csv_header f with
       | Ok df =>
           match Frame.select ["name"; "new_est_reads"] df with
           | Ok df => Ok (Frame.rename "new_est_reads" "reads" df)
           | Raise e => Raise e
           end
       | Raise e => Raise e
       end
     else
       match Frame.read_csv_names kraken_names f with
       | Ok df =>
           match Frame.where_eq "rank" "S" df with
           | Ok df =>
               match Frame.select ["name"; "reads_rooted"] df with
               | Ok df => Ok (Frame.rename "reads_rooted" "reads" df)
               | Raise e => Raise e
               end
           | Raise e => Raise e
           end
       | Raise e => Raise e
       end)
  with
  | Ok df => Frame.strip_column "name" df
  | Raise e => Raise e
  end.

Definition parse_species_abundance (report_path : string) (use_bracken : bool)
    : M Frame.typed :=
  f ← read_file report_path;
  lift (parse_report use_bracken f).

(** The [try] block of [main] up to the frame [df_t] of the sample: the
    classifier, the refiner when asked for, the parser, and the row
    built from the parsed frame. *)
Record classified : Type := Classified {
  kraken_report : string;
  report_to_use : string;
  df_t : Frame.t
}.

Definition classify (a : args) (sample_id : string) (fastqs : list string)
    : M classified :=
  kraken_report ← run_kraken2 sample_id fastqs (kraken_db a) (threads a);
  report_to_use ←
    (if use_bracken a
     then run_bracken kraken_report (kraken_db a) (read_length a) "S"
     else ret kraken_report);
  df ← parse_species_abundance report_to_use (use_bracken a);
  df_t ← lift (Frame.transpose_series "name" "reads" df);
  ret (Classified kraken_report report_to_use (Frame.assign "SampleID" sample_id df_t)).

(** [df_t.to_csv(output_csv, mode="a", index=False, header=first)],
    then [first = False] and [success += 1]. *)
Definition append_to_csv (df_t : Frame.t) : M unit :=
  s ← get_state;
  modify (set_csv (fun c => c ++ Frame.to_csv_rows (first s) df_t));;
  modify (set_first false);;
  modify (set_success S).

(** The two [os.remove] calls that end the [try] block. *)
Definition cleanup (a : args) (c : classified) : M unit :=
  os_remove (kraken_report c);;
  (if use_bracken a then os_remove (report_to_use c) else pass).

(** The statements of the [try] block of [main], for one sample. *)
Definition process_sample (a : args) (sample_id : string)
    (fastqs : list string) : M unit :=
  c ← classify a sample_id fastqs;
  append_to_csv (df_t c);;
  cleanup a c.

(** One iteration of the loop of [main]: the [try] block and its handler. *)
Definition iteration (a : args) (sample : string * list string) : M unit :=
  try_except (process_sample a sample.1 sample.2)
    (fun e => modify (set_failed (fun l => l ++ [(sample.1, e)]))).

(** The loop over [samples.items()]. *)
Fixpoint classify_samples (a : args) (samples : Dict.t (list string)) : M unit :=
  match samples with
  | [] => pass
  | sample :: rest => iteration a sample;; classify_samples a rest
  end.

(** What the closing log line reports: successes and samples found. *)
Record summary : Type := Summary { succeeded : nat; total : nat }.

(** [os.path.isdir] *)
Definition isdir (p : string) : M bool :=
  s ← get_state; ret (bool_decide (p ∈ dirs s)).

(** The checks of [main] on its arguments, under [# Validate inputs]. *)
Definition validate_inputs (a : args) (fs : Discovery.listing) : M unit :=
  input_ok ← isdir (input_dir a);
  if negb input_ok
  then raise (NotADirectoryError ("Input directory not found: " +:+ input_dir a))
  else
    db_ok ← isdir (kraken_db a);
    if negb db_ok
    then raise (NotADirectoryError ("Kraken2 DB directory not found: " +:+ kraken_db a))
    else
      hash_dir ← isdir (Path.join (kraken_db a) "hash.k2d");
      if negb (Discovery.exists_ fs (Path.join (kraken_db a) "hash.k2d") || hash_dir)
      then raise (FileNotFoundError "Kraken2 DB appears invalid (missing hash.k2d)")
      else pass.

(** [main] from the checks of its arguments on. An error of these checks
    or of discovery is not caught: it ends the run before anything is
    classified. *)
Definition main (a : args) (fs : Discovery.listing) (s0 : state) : result summary * state :=
  match validate_inputs a fs s0 with
  | (Raise e, s) => (Raise e, s)
  | (Ok tt, _) =>
      match Discovery.discover_samples fs (input_dir a) with
      | Raise e => (Raise e, s0)
      | Ok samples =>
          let s := set_success (fun _ => 0) (set_first true s0) in
          match classify_samples a samples s with
          | (Ok tt, s') => (Ok (Summary (success s') (length samples)), s')
          | (Raise e, s') => (Raise e, s')
          end
      end
  end.

End Pipeline.


(** * Definitions used to state the properties *)

Section Statements.

Import Discovery.

(** ** Reports and their records *)

(** The rows of a raw report that the parser keeps: rank code [S]. *)
Definition species_rows (f : file) : list row :=
  List.filter (fun r => String.eqb (Frame.cell r 3) "S") f.

(** A field that the tokenizer hands on as it stands: it holds no
    quotation mark, tab, line feed or carriage return. *)
Fixpoint plain_field (s : string) : bool :=
  match s with
  | EmptyString => true
  | String c t =>
      negb (bool_decide (nat_of_ascii c ∈ [34; 9; 10; 13])) && plain_field t
  end.

(** A file of [width] columns small enough for the reader to type its
    columns in one piece: the reader works through a file in pieces of
    at least [2^20 / (2 * width)] rows and types each piece by itself. *)
Definition one_piece (width : nat) (f : file) : bool :=
  (2 * N.of_nat (length f) * N.of_nat width <=? 2 ^ 20)%N.

(** A file that is read as it stands: plain fields, one piece. *)
Definition read_as_it_stands (width : nat) (f : file) : Prop :=
  Forall (Forall (fun s => plain_field s = true)) f ∧ one_piece width f = true.

(** A raw report as the classifier writes it: six fields in every row,
    read as they stand. *)
Definition raw_shape (f : file) : Prop :=
  Forall (fun r : row => length r = 6) f ∧ read_as_it_stands 6 f.

(** A refined report as the refiner writes it: a header row holding the
    two labels read, [name] first at position [i] and [new_est_reads]
    first at position [j], and in every row as many fields as in the
    header, read as they stand. *)
Definition refined_shape (f : file) (i j : nat) : Prop :=
  ∃ header body,
    f = header :: body ∧
    Forall (fun r : row => length r = length header) body ∧
    Frame.position "name" header = Some i ∧
    Frame.position "new_est_reads" header = Some j ∧
    read_as_it_stands (length header) f.

(** A report of either format with the positions of the name and of the
    count that the parser reads: the sixth and the second field of a raw
    report. *)
Definition report_shape (use_bracken : bool) (f : file) (i j : nat) : Prop :=
  if use_bracken then refined_shape f i j else raw_shape f ∧ i = 5 ∧ j = 1.

(** The rows of a report from which the reader infers the dtypes: all
    rows but the header row. *)
Definition data_rows (use_bracken : bool) (f : file) : list row :=
  if use_bracken then tail f else f.

(** The rows of a report that reach the frame. *)
Definition retained (use_bracken : bool) (f : file) : list row :=
  if use_bracken then tail f else species_rows f.

Fixpoint has_digit (s : string) : bool :=
  match s with
  | EmptyString => false
  | String c t => Frame.is_digit c || has_digit t
  end.

(** Not a missing value, and not an infinity or a truth value in any
    case of its letters. *)
Definition plain (s : string) : bool :=
  negb (Frame.is_na s) &&
  negb (bool_decide (Frame.lower s ∈ Frame.infinities ++ ["true"; "false"])).

(** A field that is text for every reader of numbers: it has no digit,
    and neither the field nor its trimmed form is a missing value, an
    infinity or a truth value. *)
Definition is_word (s : string) : bool :=
  negb (has_digit s) && plain s && plain (Str.strip s).

Fixpoint all_digits (s : string) : bool :=
  match s with
  | EmptyString => true
  | String c t => Frame.is_digit c && all_digits t
  end.

(** A count as the specification wants it: the text of a non-negative
    integer. *)
Definition is_count (s : string) : bool :=
  negb (String.eqb s "") && all_digits s.

(** A count of at most 18 digits, which fits 64 bits whatever its
    digits. *)
Definition small_count (s : string) : bool :=
  is_count s && (String.length s <=? 18).

(** A report as the tools write it: of the shape of its format, with a
    word among its names, so that the names are read as text, and with
    counts of at most 18 digits, so that the counts are read as
    integers. *)
Definition regular (use_bracken : bool) (f : file) (i j : nat) : Prop :=
  report_shape use_bracken f i j ∧
  Exists (fun r => is_word (Frame.cell r i) = true) (data_rows use_bracken f) ∧
  Forall (fun r => small_count (Frame.cell r j) = true) (data_rows use_bracken f).

(** The names of the records of a report, trimmed, a missing name being
    empty; and their counts as integers in decimal. *)
Definition taxa (use_bracken : bool) (f : file) (i : nat) : list string :=
  (fun r => Str.strip (Frame.text (Frame.cell r i))) <$> retained use_bracken f.

Definition counts (use_bracken : bool) (f : file) (j : nat) : list string :=
  (fun r => pretty (Frame.to_N (Frame.cell r j))) <$> retained use_bracken f.

(** The dtypes of the first [n] columns of rows. *)
Definition column_types (n : nat) (body : list row) : list Frame.dtype :=
  (fun i => Frame.infer (Frame.column i body)) <$> seq 0 n.

(** The fields of the column of names, when the report has one. *)
Definition name_fields (use_bracken : bool) (f : file) : list string :=
  if use_bracken
  then match f with
       | header :: body =>
           match Frame.position "name" header with
           | Some i => Frame.column i body
           | None => []
           end
       | [] => []
       end
  else Frame.column 5 f.

(** The projection as the specification words it: the species rows,
    each projected to its name and the reads assigned at the rank itself,
    the third field. *)
Definition raw_projection_by_spec (f : file) : list (list string) :=
  (fun r => [Str.strip (Frame.cell r 5); Frame.cell r 2]) <$> species_rows f.

Definition reads_at_rank_claim (f : file) : Prop :=
  ∀ df, parse_report false f = Ok df →
        Frame.rows (Frame.frame df) = raw_projection_by_spec f.

(** A report with one species row: 12 reads in the clade, 7 at the rank. *)
Definition clade_report : file :=
  [ ["100.00"; "12"; "0"; "R"; "1"; "root"];
    ["100.00"; "12"; "7"; "S"; "562"; "  Escherichia coli"];
    ["41.67"; "5"; "5"; "S1"; "83333"; "    Escherichia coli K-12"] ].

(** The records as the specification words them: names trimmed and not
    empty, counts non-negative integers; or else the parser fails. *)
Definition normalized_claim (use_bracken : bool) (f : file) : Prop :=
  match parse_report use_bracken f with
  | Ok df =>
      Forall (fun r => Str.strip (Frame.cell r 0) = Frame.cell r 0 ∧
                       Frame.cell r 0 ≠ "" ∧
                       is_count (Frame.cell r 1) = true) (Frame.rows (Frame.frame df))
  | Raise _ => True
  end.

(** A raw report whose second species row has a blank name and a count
    that is not a number. *)
Definition blank_name_report : file :=
  [ ["50.00"; "10"; "10"; "S"; "562"; "  Escherichia coli"];
    ["1.00"; "abc"; "0"; "S"; "9"; "   "] ].

(** The same rows in the refined format. *)
Definition blank_name_refined : file :=
  [ ["name"; "taxonomy_id"; "taxonomy_lvl"; "kraken_assigned_reads";
     "added_reads"; "new_est_reads"; "fraction_total_reads"];
    ["Escherichia coli"; "562"; "S"; "10"; "2"; "12"; "0.92"];
    ["   "; "9"; "S"; "1"; "0"; "abc"; "0.08"] ].

(** A raw report whose counts are written with leading zeros, and one of
    whose names is a missing-value token. *)
Definition padded_report : file :=
  [ ["60.00"; "007"; "7"; "S"; "562"; "  Escherichia coli  "];
    ["40.00"; "012"; "12"; "S"; "9"; "NA"] ].

(** A raw report in which every name is a number. *)
Definition numbered_report : file :=
  [ ["60.00"; "6"; "6"; "S"; "562"; "562"];
    ["40.00"; "4"; "4"; "S"; "9"; "9"] ].

(** ** Samples, outcomes and the table *)

(** [m] takes every state to a state related to it by [R]. *)
Definition steps (R : relation state) {A} (m : M A) : Prop := ∀ s, R s (m s).2.

(** The table, its two variables and the failure log are the same in
    both states. *)
Definition untouched (s s' : state) : Prop :=
  csv s' = csv s ∧ first s' = first s ∧ success s' = success s ∧ failed s' = failed s.

Section Outcomes.

Variable run : launch → gmap string file → result Z * gmap string file.

(** The frame a sample gives when its classification succeeds, or the
    exception that ends its [try] block before anything is written. *)
Definition outcome (a : args) (sample : string * list string) (s : state)
    : result Frame.t :=
  match classify run a sample.1 sample.2 s with
  | (Ok c, _) => Ok (df_t c)
  | (Raise e, _) => Raise e
  end.

(** The report that the parser is given for a sample: the file at the
    path that the classifier step returns, or the refiner step when
    refinement is on, as these steps leave it. *)
Definition report_read (a : args) (sample : string * list string) (s : state)
    : option file :=
  match (kraken_report ← run_kraken2 run sample.1 sample.2 (kraken_db a) (threads a);
         report_to_use ←
           (if use_bracken a
            then run_bracken run kraken_report (kraken_db a) (read_length a) "S"
            else ret kraken_report);
         read_file report_to_use) s with
  | (Ok f, _) => Some f
  | (Raise _, _) => None
  end.

(** The outcomes of the samples in the order of the loop, each in the
    state the iterations before it have left. *)
Fixpoint outcomes (a : args) (samples : Dict.t (list string)) (s : state)
    : list (string * result Frame.t) :=
  match samples with
  | [] => []
  | x :: rest => (x.1, outcome a x s) :: outcomes a rest (iteration run a x s).2
  end.

End Outcomes.

Fixpoint frames (os : list (string * result Frame.t)) : list Frame.t :=
  match os with
  | [] => []
  | (_, Ok f) :: r => f :: frames r
  | (_, Raise _) :: r => frames r
  end.

Fixpoint failures (os : list (string * result Frame.t)) : list (string * exn) :=
  match os with
  | [] => []
  | (_, Ok _) :: r => failures r
  | (sid, Raise e) :: r => (sid, e) :: failures r
  end.

(** The rows that a sequence of frames adds to the table: only the frame
    that finds [first] set writes its labels. *)
Fixpoint table_rows (first : bool) (fs : list Frame.t) : file :=
  match fs with
  | [] => []
  | f :: fs' => Frame.to_csv_rows first f ++ table_rows false fs'
  end.

(** The row that [main] builds from a parsed report: its labels are the
    trimmed names followed by [SampleID], its cells the counts followed
    by the identifier of the sample. *)
Definition sample_frame (sample_id : string) (names counts : list string) : Frame.t :=
  Frame.assign "SampleID" sample_id (Frame.Make names [counts]).

(** The label row of a table: that of its first frame. *)
Definition header_rows (first : bool) (fs : list Frame.t) : list (list string) :=
  match fs with
  | f :: _ => if first then [Frame.columns f] else []
  | [] => []
  end.

(** ** The table of the specification *)

(** The cell of a row that stands under a label of the header. *)
Definition value_under (header r : list string) (label : string) : option string :=
  match Frame.position label header with
  | Some i => r !! i
  | None => None
  end.

(** The table as the specification words it: its header has a column
    for every label of every frame, and every frame has a row that
    holds, under every column, the frame's own value for that label, or
    0 where the frame has no such label. *)
Definition aligned_with (fs : list Frame.t) (table : list (list string)) : Prop :=
  fs = [] ∨
  ∃ header body,
    table = header :: body ∧
    (∀ f t, f ∈ fs → t ∈ Frame.columns f → t ∈ header) ∧
    (∀ f r, f ∈ fs → r ∈ Frame.rows f →
       ∃ r', r' ∈ body ∧
             ∀ t, t ∈ header →
                  value_under header r' t =
                  Some (default "0" (value_under (Frame.columns f) r t))).

(** What the loop has added to the table. *)
Definition written (s s' : state) : list (list string) :=
  drop (length (csv s)) (csv s').

(** Two-phase aggregation as the specification words it: the table is
    not written to before the last sample has been attempted, and the
    table written is aligned with the frames of the samples that
    succeeded. *)
Definition written_after_all run (a : args) (samples : Dict.t (list string))
    (s : state) : Prop :=
  ∀ done x rest, samples = done ++ x :: rest →
    csv (classify_samples run a done s).2 = csv s.

Definition two_phase_claim run (a : args) (samples : Dict.t (list string))
    (s : state) : Prop :=
  written_after_all run a samples s ∧
  aligned_with (frames (outcomes run a samples s))
    (written s (classify_samples run a samples s).2).

(** ** Runs on which the properties are tried *)

(** The scenario of two samples: S1 with Ecoli 10 and Bsubtilis 0, S2
    with Ecoli 5 and Lactobacillus 3. The classifier is played by a
    function that writes the report of the sample named on its command
    line. *)
Definition scenario_args : args := Args "/in" "/out" "/db" 4 false 150.

Definition scenario_listing : list string := ["/in/S1.fastq"; "/in/S2.fastq"].

Definition scenario_samples : Dict.t (list string) :=
  [("S1", ["/in/S1.fastq"]); ("S2", ["/in/S2.fastq"])].

Definition s1_report : list (list string) :=
  [ ["100.00"; "10"; "10"; "S"; "562"; "  Ecoli"];
    ["0.00"; "0"; "0"; "S"; "1423"; "  Bsubtilis"] ].

Definition s2_report : list (list string) :=
  [ ["62.50"; "5"; "5"; "S"; "562"; "  Ecoli"];
    ["37.50"; "3"; "3"; "S"; "1578"; "  Lactobacillus"] ].

Definition scenario_tool (l : launch) (fs : gmap string (list (list string)))
    : result Z * gmap string (list (list string)) :=
  match launch_args l with
  | inl cmd =>
      if Str.contains "'/in/S1.fastq'" cmd
      then (Ok 0%Z, <["/tmp/S1.kraken2.report" := s1_report]> fs)
      else if Str.contains "'/in/S2.fastq'" cmd
      then (Ok 0%Z, <["/tmp/S2.kraken2.report" := s2_report]> fs)
      else (Ok 1%Z, fs)
  | inr _ => (Ok 127%Z, fs)
  end.

(** A first run: no artifact, no process launched, no table yet; the
    input directory and the database directory exist. *)
Definition fresh : state := State ∅ [] [] true 0 [] ["/in"; "/db"].

(** Two samples that report the same taxa. *)
Definition uniform_s2_report : list (list string) :=
  [ ["62.50"; "5"; "5"; "S"; "562"; "  Ecoli"];
    ["37.50"; "3"; "3"; "S"; "1423"; "  Bsubtilis"] ].

Definition uniform_tool (l : launch) (fs : gmap string (list (list string)))
    : result Z * gmap string (list (list string)) :=
  match launch_args l with
  | inl cmd =>
      if Str.contains "'/in/S1.fastq'" cmd
      then (Ok 0%Z, <["/tmp/S1.kraken2.report" := s1_report]> fs)
      else if Str.contains "'/in/S2.fastq'" cmd
      then (Ok 0%Z, <["/tmp/S2.kraken2.report" := uniform_s2_report]> fs)
      else (Ok 1%Z, fs)
  | inr _ => (Ok 127%Z, fs)
  end.

(** Three samples with refinement on. The refiner's output for T2 lacks
    the [new_est_reads] column, so its parse is rejected. *)
Definition cohort_args : args := Args "/in" "/out" "/db" 4 true 150.

Definition cohort_listing : list string :=
  ["/in/T1.fastq"; "/in/T2.fastq"; "/in/T3.fastq"; "/db/hash.k2d"].

Definition cohort_samples : Dict.t (list string) :=
  [("T1", ["/in/T1.fastq"]); ("T2", ["/in/T2.fastq"]); ("T3", ["/in/T3.fastq"])].

Definition raw_report : list (list string) :=
  [ ["100.00"; "15"; "0"; "R"; "1"; "root"];
    ["66.67"; "10"; "10"; "S"; "562"; "  Ecoli"] ].

Definition refined_header : list string :=
  ["name"; "taxonomy_id"; "taxonomy_lvl"; "kraken_assigned_reads";
   "added_reads"; "new_est_reads"; "fraction_total_reads"].

Definition t1_refined : list (list string) :=
  [ refined_header;
    ["Ecoli"; "562"; "S"; "9"; "1"; "10"; "1.00000"] ].

Definition t2_refined : list (list string) :=
  [ ["name"; "taxonomy_id"; "taxonomy_lvl"];
    ["Ecoli"; "562"; "S"] ].

Definition t3_refined : list (list string) :=
  [ refined_header;
    ["Ecoli"; "562"; "S"; "5"; "0"; "5"; "0.62500"];
    ["Lactobacillus"; "1578"; "S"; "2"; "1"; "3"; "0.37500"] ].

Definition cohort_tool (l : launch) (fs : gmap string (list (list string)))
    : result Z * gmap string (list (list string)) :=
  match launch_args l with
  | inl cmd =>
      if Str.startswith "kraken2 " cmd then
        if Str.contains "'/in/T1.fastq'" cmd
        then (Ok 0%Z, <["/tmp/T1.kraken2.report" := raw_report]> fs)
        else if Str.contains "'/in/T2.fastq'" cmd
        then (Ok 0%Z, <["/tmp/T2.kraken2.report" := raw_report]> fs)
        else if Str.contains "'/in/T3.fastq'" cmd
        then (Ok 0%Z, <["/tmp/T3.kraken2.report" := raw_report]> fs)
        else (Ok 1%Z, fs)
      else if Str.startswith "bracken " cmd then
        if Str.contains "-o '/tmp/T1.bracken'" cmd
        then (Ok 0%Z, <["/tmp/T1.bracken" := t1_refined]> fs)
        else if Str.contains "-o '/tmp/T2.bracken'" cmd
        then (Ok 0%Z, <["/tmp/T2.bracken" := t2_refined]> fs)
        else if Str.contains "-o '/tmp/T3.bracken'" cmd
        then (Ok 0%Z, <["/tmp/T3.bracken" := t3_refined]> fs)
        else (Ok 1%Z, fs)
      else (Ok 127%Z, fs)
  | inr _ => (Ok 127%Z, fs)
  end.

(** Failure isolation as the specification words it: with one sample
    failing among N, N-1 are counted as succeeded and the table is the
    aligned table of the N-1 frames, one row each. *)
Definition isolation_claim run (a : args) (samples : Dict.t (list string))
    (s : state) : Prop :=
  length (failures (outcomes run a samples s)) = 1 →
  let s' := (classify_samples run a samples s).2 in
  success s' = success s + (length samples - 1) ∧
  aligned_with (frames (outcomes run a samples s)) (written s s').

(** The arguments pass the checks of [main]: the input directory and the
    database directory exist, and the database holds [hash.k2d]. *)
Definition valid_inputs (a : args) (fs : list string) (s0 : state) : Prop :=
  input_dir a ∈ dirs s0 ∧ kraken_db a ∈ dirs s0 ∧
  (Path.join (kraken_db a) "hash.k2d" ∈ fs ∨ Path.join (kraken_db a) "hash.k2d" ∈ dirs s0).

(** The state in which [main] enters its loop. *)
Definition loop_entry (s0 : state) : state :=
  set_success (fun _ => 0) (set_first true s0).

(** A classifier that exits with status 0 and writes nothing. *)
Definition silent_tool (l : launch) (fs : gmap string (list (list string)))
    : result Z * gmap string (list (list string)) := (Ok 0%Z, fs).

(** ** Launches *)

(** A launch as the specification words it: the arguments as a sequence
    of strings, not handed to a shell. *)
Definition discrete_arguments (l : launch) : Prop :=
  launch_shell l = false ∧ ∃ argv, launch_args l = inr argv.

(** A launch as the code makes it: one command string for the shell. *)
Definition shell_string (l : launch) : Prop :=
  launch_shell l = true ∧ ∃ cmd, launch_args l = inl cmd.

Definition discrete_claim run (a : args) (samples : Dict.t (list string))
    (s : state) : Prop :=
  ∀ new, calls (classify_samples run a samples s).2 = calls s ++ new →
         Forall discrete_arguments new.

(** The launches made between two states were all shell strings. *)
Definition shell_calls (s s' : state) : Prop :=
  ∃ new, calls s' = calls s ++ new ∧ Forall shell_string new.

(** ** The assignments of sample discovery *)

(** Assigning a list of entries one after the other. *)
Definition update {V} (d entries : list (string * V)) : list (string * V) :=
  foldl (fun d e => Dict.set d e.1 e.2) d entries.

(** The value of the last entry with key [k]. *)
Fixpoint last_entry {V} (k : string) (entries : list (string * V)) : option V :=
  match entries with
  | [] => None
  | (k', v) :: rest =>
      match last_entry k rest with
      | Some v' => Some v'
      | None => if String.eqb k' k then Some v else None
      end
  end.

Definition partner (r1 : string) : string := Str.replace "_R1" "_R2" r1.

Definition r1_id (r1 : string) : string := Str.split_first "_R1" (Path.basename r1).

(** What the pairing loop assigns for a read-1 file. *)
Definition r1_entry (fs : list string) (r1 : string) : string * list string :=
  (r1_id r1, if exists_ fs (partner r1) then [r1; partner r1] else [r1]).

(** What the second loop assigns for a file left unpaired. *)
Definition single_entry (f : string) : string * list string := (single_id f, [f]).

Definition r1_entries (fs files : list string) : list (string * list string) :=
  r1_entry fs <$> List.filter is_r1 files.

(** The assignments [samples[sample_id] = ...] of [discover_samples] in
    the order in which they are made. *)
Definition registrations (fs files : list string) : list (string * list string) :=
  r1_entries fs files ++
  (single_entry <$> unpaired_files (pair_r1_files fs files) files).

(** The claim as the specification words it: when two assignments are
    made under the same identifier, discovery ends with an error. *)
Definition duplicate_claim (fs : list string) (dir : string) : Prop :=
  ¬ NoDup (registrations fs (glob_fastq fs dir)).*1 →
  ∃ e, discover_samples fs dir = Raise e.

(** Two single-end files named alike in two directories. *)
Definition twin_listing : list string := ["/in/a/A.fastq"; "/in/b/A.fastq"].

(** The paths that the pairing loop assigns for a list of read-1 files. *)
Definition paired_paths (fs r1s : list string) : list string :=
  concat ((r1_entry fs <$> r1s).*2).

(** The claim as stated: with distinct derived identifiers, every file
    found is in the path list of exactly one sample. *)
Definition partition_claim (fs : list string) (dir : string) : Prop :=
  NoDup fs →
  NoDup (registrations fs (glob_fastq fs dir)).*1 →
  ∀ samples, discover_samples fs dir = Ok samples →
  ∀ f, f ∈ glob_fastq fs dir →
       length (List.filter (fun e => bool_decide (f ∈ e.2)) samples) = 1.

(** Two read-1 files whose names also carry the read-2 marker, and the
    file that is the partner of both. *)
Definition crossed_listing : list string :=
  ["/in/X_R1_R2.fastq"; "/in/X_R2_R1.fastq"; "/in/X_R2_R2.fastq"].

(** The two read-1 files of [crossed_listing] without the file that is
    the partner derived from both. *)
Definition uncrossed_listing : list string :=
  ["/in/X_R1_R2.fastq"; "/in/X_R2_R1.fastq"].

Definition uncrossed_samples : Dict.t (list string) :=
  [ ("X", ["/in/X_R1_R2.fastq"]); ("X_R2", ["/in/X_R2_R1.fastq"]) ].

(** A directory with a pair, a single-end file in a subdirectory and a
    read-1 file without partner. *)
Definition mixed_listing : list string :=
  ["/in/A_R1.fastq.gz"; "/in/A_R2.fastq.gz"; "/in/sub/B.fastq"; "/in/C_R1.fastq"].

Definition mixed_samples : Dict.t (list string) :=
  [ ("A", ["/in/A_R1.fastq.gz"; "/in/A_R2.fastq.gz"]);
    ("C", ["/in/C_R1.fastq"]);
    ("B", ["/in/sub/B.fastq"]) ].

(** A directory path written without a trailing slash, without the
    read-1 marker and without a character that [glob] reads as a
    pattern. *)
Definition plain_directory (d : string) : Prop :=
  d ≠ "" ∧ Str.endswith "/" d = false ∧ Str.contains "_R1" d = false ∧
  Str.contains "*" d = false ∧ Str.contains "?" d = false ∧ Str.contains "[" d = false.

Definition read1 (d : string) : string := d +:+ "/A_R1.fastq".

Definition read2 (d : string) : string := d +:+ "/A_R2.fastq".

(** ** Statements about the rest of the code *)

(** The launch of the classifier for a sample. *)
Definition kraken2_launch (a : args) (x : string * list string) : launch :=
  Launch (inl (Str.join " " (kraken2_cmd x.1 x.2 (kraken_db a) (threads a)))) true.

(** The launch of the refiner on the classifier report of a sample. *)
Definition bracken_launch (a : args) (x : string * list string) : launch :=
  Launch (inl (bracken_cmd (kraken2_report x.1) (kraken_db a) (read_length a) "S")) true.

(** The calls are the same in both states. *)
Definition same_calls (s s' : state) : Prop := calls s' = calls s.

(** An entry as discovery forms it from the files found: one file under
    the identifier derived from it, or a read-1 file followed by its
    partner, which exists, under the read-1 identifier. *)
Definition sample_of (fs files : list string) (e : string * list string) : Prop :=
  ∃ f, f ∈ files ∧
    ((e.2 = [f] ∧
      (e.1 = single_id f ∨ (e.1 = r1_id f ∧ is_r1 f = true ∧ partner f ∉ fs))) ∨
     (e.2 = [f; partner f] ∧ e.1 = r1_id f ∧ is_r1 f = true ∧ partner f ∈ fs)).

(** The first path of every entry. *)
Definition first_paths (d : list (string * list string)) : list string :=
  (fun e => hd "" e.2) <$> d.

(** A report every row of which has the fields of its labels, read as
    they stand: six for a raw report, those of the header row, two or
    more, for a refined one. A refined report may be of zero length. *)
Definition fits_labels (use_bracken : bool) (f : list (list string)) : Prop :=
  if use_bracken
  then match f with
       | [] => True
       | header :: body =>
           2 ≤ length header ∧
           Forall (fun r : list string => length r = length header) body ∧
           read_as_it_stands (length header) f
       end
  else Forall (fun r : list string => length r = 6) f ∧ read_as_it_stands 6 f.

(** A report in which a taxon is itself called SampleID. *)
Definition sampleid_report : list (list string) :=
  [ ["60.00"; "6"; "6"; "S"; "562"; "  Ecoli"];
    ["40.00"; "4"; "4"; "S"; "9"; "  SampleID"] ].

Definition sampleid_tool (l : launch) (fs : gmap string (list (list string)))
    : result Z * gmap string (list (list string)) :=
  (Ok 0%Z, <["/tmp/S1.kraken2.report" := sampleid_report]> fs).

(** A tool that writes a report and ends with status 0, and whose
    captured output is not valid text: [subprocess.run] raises when it
    decodes it. *)
Definition undecodable_tool (l : launch) (fs : gmap string (list (list string)))
    : result Z * gmap string (list (list string)) :=
  (Raise (UnicodeDecodeError "invalid start byte"),
   <["/tmp/S1.kraken2.report" := s1_report]> fs).

(** The files are the same in both states. *)
Definition same_files (s s' : state) : Prop := files s' = files s.

(** A refiner that removes the classifier report it was given, after
    writing its own output. *)
Definition careless_tool (l : launch) (fs : gmap string (list (list string)))
    : result Z * gmap string (list (list string)) :=
  match launch_args l with
  | inl cmd =>
      if Str.startswith "kraken2 " cmd
      then (Ok 0%Z, <["/tmp/T1.kraken2.report" := raw_report]> fs)
      else (Ok 0%Z, <["/tmp/T1.bracken" := t1_refined]> (delete "/tmp/T1.kraken2.report" fs))
  | inr _ => (Ok 127%Z, fs)
  end.

End Statements.

(** * Properties *)

(** ** Strings *)

Section StringFacts.

Lemma rstrip_rstrip s : Str.rstrip (Str.rstrip s) = Str.rstrip s.
Proof.
  induction s as [|c t IH]; [done|].
  simpl. destruct (Str.rstrip t) as [|c' r] eqn:E.
  - destruct (Str.isspace c) eqn:Ec; [done|]. simpl. by rewrite Ec.
  - simpl in *. by rewrite IH.
Qed.

Lemma lstrip_head s :
  Str.lstrip s = EmptyString ∨
  ∃ c t, Str.lstrip s = String c t ∧ Str.isspace c = false.
Proof.
  induction s as [|c t IH]; [by left|].
  simpl. destruct (Str.isspace c) eqn:Ec; [done|]. right. eauto.
Qed.

Lemma rstrip_keeps_head c t :
  Str.isspace c = false → ∃ t', Str.rstrip (String c t) = String c t'.
Proof.
  intros Hc. simpl. destruct (Str.rstrip t); [|by eauto].
  rewrite Hc. eauto.
Qed.

(** What [strip] returns has no white space left at either end. *)
Lemma strip_trimmed s :
  Str.lstrip (Str.strip s) = Str.strip s ∧ Str.rstrip (Str.strip s) = Str.strip s.
Proof.
  unfold Str.strip. split; [|apply rstrip_rstrip].
  destruct (lstrip_head s) as [->|(c & t & -> & Hc)]; [done|].
  destruct (rstrip_keeps_head c t Hc) as [t' ->]. simpl. by rewrite Hc.
Qed.

Lemma strip_strip s : Str.strip (Str.strip s) = Str.strip s.
Proof.
  destruct (strip_trimmed s) as [Hl Hr].
  unfold Str.strip at 1. by rewrite Hl, Hr.
Qed.

End StringFacts.

(** ** Reading and parsing reports *)

Section Parsing.

Lemma filter_map_comm {A B} (p : B → bool) (g : A → B) (l : list A) :
  List.filter p (g <$> l) = g <$> List.filter (fun x => p (g x)) l.
Proof.
  induction l as [|x l IH]; [done|].
  rewrite fmap_cons. simpl. destruct (p (g x)); rewrite ?fmap_cons; by rewrite IH.
Qed.

Lemma filter_ext_elem {A} (p q : A → bool) (l : list A) :
  (∀ x, x ∈ l → p x = q x) → List.filter p l = List.filter q l.
Proof.
  intros H. apply List.filter_ext_in. intros x Hx. apply H. by apply list_elem_of_In.
Qed.

Lemma forallb_elem_false {A} (p : A → bool) (l : list A) x :
  x ∈ l → p x = false → forallb p l = false.
Proof.
  intros Hx Hp. apply not_true_is_false. intros H.
  rewrite forallb_forall in H. rewrite (H x) in Hp; [done|]. by apply list_elem_of_In.
Qed.

Lemma forallb_Forall_true {A} (p : A → bool) (l : list A) :
  Forall (fun x => p x = true) l → forallb p l = true.
Proof.
  intros H. apply forallb_forall. intros x Hx. rewrite Forall_forall in H.
  apply H. by apply list_elem_of_In.
Qed.

(** *** Fields *)

Lemma digit_facts c :
  Frame.is_digit c = true →
  Frame.is_space c = false ∧ Ascii.eqb c "-" = false ∧ Ascii.eqb c "+" = false ∧
  (N.of_nat (nat_of_ascii c - 48) ≤ 9)%N.
Proof. destruct c as [[] [] [] [] [] [] [] []]; try done; intros _; repeat split; by vm_compute. Qed.

Lemma has_digit_skip_spaces s : has_digit s = false → has_digit (Frame.skip_spaces s) = false.
Proof.
  induction s as [|c t IH]; [done|]. simpl.
  destruct (Frame.is_space c); [|done].
  intros H. apply orb_false_iff in H as [_ H]. by apply IH.
Qed.

Lemma has_digit_sign_of s : has_digit s = false → has_digit (Frame.sign_of s).2 = false.
Proof.
  destruct s as [|c t]; [done|]. simpl.
  intros H. pose proof H as H'. apply orb_false_iff in H' as [_ Ht].
  by destruct (Ascii.eqb c "-"), (Ascii.eqb c "+").
Qed.

Lemma digits_of_no_digit s : has_digit s = false → Frame.digits_of s = (EmptyString, s).
Proof.
  destruct s as [|c t]; [done|]. simpl.
  intros H. apply orb_false_iff in H as [-> _]. done.
Qed.

Lemma number_no_digit s : has_digit s = false → Frame.number s = None.
Proof.
  intros H. unfold Frame.number.
  apply has_digit_skip_spaces, has_digit_sign_of in H.
  destruct (Frame.sign_of (Frame.skip_spaces s)) as [negative s2]. simpl in H.
  rewrite (digits_of_no_digit _ H). simpl.
  destruct s2 as [|c t]; [done|].
  simpl in H. apply orb_false_iff in H as [_ Ht].
  destruct (Ascii.eqb c "."); [|done]. by rewrite (digits_of_no_digit _ Ht).
Qed.

Lemma lower_truth s :
  s ∈ ["True"; "TRUE"; "true"] → Frame.lower s = "true".
Proof. rewrite !elem_of_cons, elem_of_nil. intros [->|[->|[->|[]]]]; reflexivity. Qed.

Lemma lower_falsity s :
  s ∈ ["False"; "FALSE"; "false"] → Frame.lower s = "false".
Proof. rewrite !elem_of_cons, elem_of_nil. intros [->|[->|[->|[]]]]; reflexivity. Qed.

(** A word is read as text. *)
Lemma word_kind s : is_word s = true → Frame.kind s = Frame.Text.
Proof.
  unfold is_word, plain. intros H.
  apply andb_true_iff in H as [H _]. apply andb_true_iff in H as [Hd H].
  apply andb_true_iff in H as [Hna Hsp].
  apply negb_true_iff in Hd, Hna, Hsp. apply bool_decide_eq_false in Hsp.
  unfold Frame.kind. rewrite Hna, (number_no_digit _ Hd).
  rewrite bool_decide_false by (intros Hin; apply Hsp, elem_of_app; by left).
  rewrite bool_decide_false.
  2:{ intros Hin%lower_truth. apply Hsp. rewrite Hin. apply elem_of_app. right.
      apply list_elem_of_here. }
  rewrite bool_decide_false; [done|].
  intros Hin%lower_falsity. apply Hsp. rewrite Hin. apply elem_of_app. right.
  apply list_elem_of_further, list_elem_of_here.
Qed.

Lemma digits_not_na s : all_digits s = true → s ≠ "" → Frame.is_na s = false.
Proof.
  intros Hd Hne. apply bool_decide_eq_false. unfold Frame.na_values.
  rewrite !elem_of_cons, elem_of_nil.
  intros H. repeat (destruct H as [->|H]; [by vm_compute in Hd|]). done.
Qed.

Lemma digits_of_all_digits s : all_digits s = true → Frame.digits_of s = (s, EmptyString).
Proof.
  induction s as [|c t IH]; [done|]. simpl.
  intros [-> Ht]%andb_true_iff. by rewrite (IH Ht).
Qed.

Lemma to_N_from_bound s acc :
  all_digits s = true →
  (Frame.to_N_from acc s < (acc + 1) * 10 ^ N.of_nat (String.length s))%N.
Proof.
  revert acc. induction s as [|c t IH]; intros acc.
  - intros _. simpl. lia.
  - simpl all_digits. intros [Hc Ht]%andb_true_iff.
    destruct (digit_facts c Hc) as (_ & _ & _ & Hle).
    cbn [Frame.to_N_from String.length].
    specialize (IH (10 * acc + N.of_nat (nat_of_ascii c - 48))%N Ht).
    rewrite Nat2N.inj_succ, N.pow_succ_r'.
    set (d := N.of_nat (nat_of_ascii c - 48)) in *.
    set (p := (10 ^ N.of_nat (String.length t))%N) in *.
    nia.
Qed.

Lemma small_count_fits s :
  small_count s = true → Frame.fits_int64 false (Frame.to_N s) = true.
Proof.
  unfold small_count, is_count. intros [[_ Hd]%andb_true_iff Hlen%Nat.leb_le]%andb_true_iff.
  pose proof (to_N_from_bound s 0 Hd) as Hb. fold (Frame.to_N s) in Hb.
  unfold Frame.fits_int64. apply N.ltb_lt.
  assert (10 ^ N.of_nat (String.length s) ≤ 10 ^ 18)%N.
  { apply N.pow_le_mono_r; lia. }
  assert (10 ^ 18 < 2 ^ 63)%N by (by vm_compute).
  lia.
Qed.

(** A small count is read as the integer it writes. *)
Lemma small_count_kind s :
  small_count s = true → Frame.kind s = Frame.Integer false (Frame.to_N s).
Proof.
  intros Hs. pose proof (small_count_fits s Hs) as Hfit.
  unfold small_count, is_count in Hs.
  apply andb_true_iff in Hs as [[Hne Hd]%andb_true_iff _].
  apply negb_true_iff in Hne.
  assert (Hne' : s ≠ "") by (by apply String.eqb_neq).
  unfold Frame.kind. rewrite (digits_not_na s Hd Hne').
  unfold Frame.number.
  destruct s as [|c t]; [done|].
  pose proof Hd as Hd'. simpl in Hd'. apply andb_true_iff in Hd' as [Hc _].
  destruct (digit_facts c Hc) as (Hsp & Hm & Hp & _).
  cbn [Frame.skip_spaces]. rewrite Hsp. cbn [Frame.sign_of]. rewrite Hm, Hp.
  rewrite (digits_of_all_digits _ Hd). cbv beta iota zeta.
  cbn [String.eqb negb andb Frame.skip_spaces]. by rewrite Hfit.
Qed.

Lemma written_object s : Frame.written Frame.Object s = Frame.text s.
Proof. unfold Frame.written. by destruct (Frame.kind s). Qed.

Lemma written_small_count s :
  small_count s = true → Frame.written Frame.Int64 s = pretty (Frame.to_N s).
Proof. intros H. unfold Frame.written. by rewrite (small_count_kind s H). Qed.

Lemma text_is_S t : String.eqb (Frame.text t) "S" = String.eqb t "S".
Proof.
  unfold Frame.text. destruct (Frame.is_na t) eqn:Hna; [|done].
  symmetry. apply String.eqb_neq. intros ->. by vm_compute in Hna.
Qed.

(** *** Columns *)

Lemma infer_text fields s :
  s ∈ fields → Frame.kind s = Frame.Text → Frame.infer fields = Frame.Object.
Proof.
  intros Hin Hk. unfold Frame.infer. destruct fields as [|s0 fields]; [done|].
  rewrite !(forallb_elem_false _ _ s Hin); by rewrite ?Hk.
Qed.

Lemma infer_integers fields :
  fields ≠ [] →
  Forall (fun s => Frame.is_integer (Frame.kind s) = true) fields →
  Frame.infer fields = Frame.Int64.
Proof.
  intros Hne H. unfold Frame.infer. destruct fields as [|s0 fields]; [done|].
  by rewrite forallb_Forall_true.
Qed.

Lemma infer_words (body : list row) i :
  Exists (fun r => is_word (Frame.cell r i) = true) body →
  Frame.infer (Frame.column i body) = Frame.Object.
Proof.
  intros (r & Hr & Hw)%Exists_exists.
  apply (infer_text _ (Frame.cell r i)); [|by apply word_kind].
  unfold Frame.column. apply list_elem_of_fmap. by exists r.
Qed.

Lemma infer_small_counts (body : list row) j :
  body ≠ [] →
  Forall (fun r => small_count (Frame.cell r j) = true) body →
  Frame.infer (Frame.column j body) = Frame.Int64.
Proof.
  intros Hne H. apply infer_integers.
  - unfold Frame.column. by destruct body.
  - unfold Frame.column. apply Forall_fmap. eapply Forall_impl; [exact H|].
    intros r Hr. simpl. by rewrite (small_count_kind _ Hr).
Qed.

(** *** Reading rows of the width of their labels *)

Lemma not_blank (r : row) : 2 ≤ length r → Frame.blank r = false.
Proof. destruct r as [|x [|y r]]; simpl; [lia|lia|done]. Qed.

Lemma filter_not_blank (f : file) :
  Forall (fun r : row => 2 ≤ length r) f →
  List.filter (fun r => negb (Frame.blank r)) f = f.
Proof.
  induction 1 as [|r f Hr _ IH]; [done|].
  simpl. rewrite (not_blank r Hr). simpl. by rewrite IH.
Qed.

Lemma pad_exact n (r : row) : length r = n → Frame.pad n r = r.
Proof. intros <-. unfold Frame.pad. by rewrite take_app_length. Qed.

Lemma column_types_lookup n (body : list row) i :
  i < n → column_types n body !! i = Some (Frame.infer (Frame.column i body)).
Proof.
  intros Hi. unfold column_types. rewrite list_lookup_fmap, lookup_seq_lt by done. done.
Qed.

Lemma cell_written n (body : list row) (r : row) i :
  length r = n → i < n →
  Frame.cell (zip_with Frame.written (column_types n body) r) i =
  Frame.written (Frame.infer (Frame.column i body)) (Frame.cell r i).
Proof.
  intros Hr Hi. unfold Frame.cell.
  rewrite lookup_zip_with, column_types_lookup by done. simpl.
  destruct (r !! i) eqn:E; [done|]. apply lookup_ge_None in E. lia.
Qed.

Lemma read_rows_exact labels (body : list row) :
  Forall (fun r : row => length r = length labels) body →
  Frame.read_rows labels body =
    Ok (Frame.Typed
          (Frame.Make labels
             ((fun r => zip_with Frame.written (column_types (length labels) body) r)
                <$> body))
          (column_types (length labels) body)).
Proof.
  intros Hw. unfold Frame.read_rows.
  assert (Hmax : match body with
                 | r :: _ => Nat.max (length labels) (length r)
                 | [] => length labels
                 end = length labels).
  { destruct body as [|r body]; [done|]. apply Forall_cons_1 in Hw as [Hr _].
    rewrite Hr. apply Nat.max_id. }
  rewrite Hmax.
  rewrite forallb_Forall_true.
  2:{ eapply Forall_impl; [exact Hw|]. intros r Hr. apply Nat.leb_le. by rewrite Hr. }
  rewrite Nat.sub_diag.
  assert (Hdata : (fun r : row => drop 0 (Frame.pad (length labels) r)) <$> body = body).
  { rewrite <- (list_fmap_id body) at 2. apply Forall_fmap_ext_1.
    eapply Forall_impl; [exact Hw|]. intros r Hr. simpl. by rewrite pad_exact. }
  rewrite Hdata. done.
Qed.


Lemma position_lt label cols i :
  Frame.position label cols = Some i → i < length cols.
Proof.
  revert i. induction cols as [|c cols IH]; intros i; [done|].
  simpl. destruct (String.eqb c label).
  - intros [= <-]. lia.
  - destruct (Frame.position label cols) as [k|]; [|done].
    intros [= <-]. specialize (IH k eq_refl). lia.
Qed.

Lemma position_None label cols : Frame.position label cols = None ↔ label ∉ cols.
Proof.
  induction cols as [|c cols IH]; simpl.
  - split; [intros _; apply not_elem_of_nil|done].
  - rewrite not_elem_of_cons. destruct (String.eqb_spec c label) as [->|Hne].
    + split; [done|]. by intros [? _].
    + destruct (Frame.position label cols) as [i|]; simpl.
      * split; [done|]. intros [_ H]. by apply IH in H.
      * split; [|done]. intros _. split; [congruence|]. by apply IH.
Qed.

Lemma select_two a b cols (rs : list row) ds i j :
  Frame.position a cols = Some i → Frame.position b cols = Some j →
  Frame.select [a; b] (Frame.Typed (Frame.Make cols rs) ds) =
    Ok (Frame.Typed
          (Frame.Make [a; b] ((fun r => [Frame.cell r i; Frame.cell r j]) <$> rs))
          [default Frame.Object (ds !! i); default Frame.Object (ds !! j)]).
Proof.
  intros Hi Hj. unfold Frame.select. cbn [Frame.frame Frame.columns Frame.rows Frame.positions].
  by rewrite Hi, Hj.
Qed.

Lemma strip_name (rs : list row) d d' :
  Frame.strip_column "name" (Frame.Typed (Frame.Make ["name"; "reads"] rs) [d; d']) =
    match d with
    | Frame.Object =>
        Ok (Frame.Typed
              (Frame.Make ["name"; "reads"]
                 ((fun r => <[0 := Str.strip (Frame.cell r 0)]> r) <$> rs))
              [d; d'])
    | _ => Raise (AttributeError "Can only use .str accessor with string values!")
    end.
Proof. by destruct d. Qed.

Lemma insert_strip (a b : string) :
  <[0 := Str.strip (Frame.cell [a; b] 0)]> [a; b] = [Str.strip a; b].
Proof. reflexivity. Qed.

Lemma kind_S : Frame.kind "S" = Frame.Text.
Proof. by vm_compute. Qed.

Lemma where_rank_is_S (f : file) :
  Forall (fun r : row => length r = 6) f →
  Frame.where_eq "rank" "S"
    (Frame.Typed
       (Frame.Make kraken_names
          ((fun r => zip_with Frame.written (column_types 6 f) r) <$> f))
       (column_types 6 f)) =
  Ok (Frame.Typed
        (Frame.Make kraken_names
           ((fun r => zip_with Frame.written (column_types 6 f) r) <$> species_rows f))
        (column_types 6 f)).
Proof.
  intros Hs. unfold Frame.where_eq.
  cbn [Frame.frame Frame.columns Frame.rows Frame.dtypes].
  change (Frame.position "rank" kraken_names) with (Some 3).
  cbv beta iota. unfold Frame.dtype_at. cbn [Frame.dtypes].
  rewrite column_types_lookup by lia. cbn [default].
  do 3 f_equal. rewrite filter_map_comm. f_equal. unfold species_rows.
  apply filter_ext_elem. intros r Hr.
  assert (Hlen : length r = 6) by (rewrite Forall_forall in Hs; auto).
  rewrite (cell_written 6 f r 3 Hlen) by lia.
  destruct (Frame.infer (Frame.column 3 f)) eqn:E.
  - rewrite written_object, text_is_S. apply andb_true_r.
  - symmetry. apply not_true_is_false. intros Heq%String.eqb_eq.
    rewrite (infer_text (Frame.column 3 f) "S") in E; [done| |exact kind_S].
    unfold Frame.column. apply list_elem_of_fmap. by exists r.
  - symmetry. apply not_true_is_false. intros Heq%String.eqb_eq.
    rewrite (infer_text (Frame.column 3 f) "S") in E; [done| |exact kind_S].
    unfold Frame.column. apply list_elem_of_fmap. by exists r.
  - symmetry. apply not_true_is_false. intros Heq%String.eqb_eq.
    rewrite (infer_text (Frame.column 3 f) "S") in E; [done| |exact kind_S].
    unfold Frame.column. apply list_elem_of_fmap. by exists r.
Qed.

Lemma species_rows_in (f : file) r : r ∈ species_rows f → r ∈ f.
Proof.
  unfold species_rows. rewrite !list_elem_of_In. intros H. by apply List.filter_In in H as [? _].
Qed.

(** What the parser does with a raw report of six fields a row. *)
Lemma parse_raw (f : file) :
  Forall (fun r : row => length r = 6) f →
  parse_report false f =
    match Frame.infer (Frame.column 5 f) with
    | Frame.Object =>
        Ok (Frame.Typed
              (Frame.Make ["name"; "reads"]
                 ((fun r => [Str.strip (Frame.text (Frame.cell r 5));
                             Frame.written (Frame.infer (Frame.column 1 f)) (Frame.cell r 1)])
                    <$> species_rows f))
              [Frame.Object; Frame.infer (Frame.column 1 f)])
    | _ => Raise (AttributeError "Can only use .str accessor with string values!")
    end.
Proof.
  intros Hs. unfold parse_report, Frame.read_csv_names.
  rewrite filter_not_blank.
  2:{ eapply Forall_impl; [exact Hs|]. intros r Hr. simpl in Hr. rewrite Hr. lia. }
  rewrite read_rows_exact by exact Hs.
  change (length kraken_names) with 6.
  rewrite (where_rank_is_S f Hs).
  rewrite (select_two "name" "reads_rooted" kraken_names _ _ 5 1) by done.
  unfold Frame.rename. cbn [Frame.frame Frame.columns Frame.rows Frame.dtypes].
  rewrite !column_types_lookup by lia. cbn [default].
  change ((fun c => if String.eqb c "reads_rooted" then "reads" else c)
            <$> ["name"; "reads_rooted"]) with ["name"; "reads"].
  rewrite strip_name.
  destruct (Frame.infer (Frame.column 5 f)) eqn:E; try done.
  do 3 f_equal. rewrite <- !list_fmap_compose.
  apply Forall_fmap_ext_1, Forall_forall. intros r Hr%species_rows_in.
  assert (Hlen : length r = 6) by (rewrite Forall_forall in Hs; auto).
  unfold compose. rewrite insert_strip.
  rewrite !(cell_written 6 f r _ Hlen) by lia.
  by rewrite E, written_object.
Qed.

Lemma refined_header_wide header i j :
  Frame.position "name" header = Some i →
  Frame.position "new_est_reads" header = Some j →
  2 ≤ length header.
Proof.
  destruct header as [|h1 [|h2 t]]; [done| |simpl; lia].
  simpl. destruct (String.eqb_spec h1 "name") as [->|]; [|done]. done.
Qed.

(** What the parser does with a refined report whose rows are as wide as
    its header. *)
Lemma parse_refined (header : row) (body : list row) i j :
  Forall (fun r : row => length r = length header) body →
  Frame.position "name" header = Some i →
  Frame.position "new_est_reads" header = Some j →
  parse_report true (header :: body) =
    match Frame.infer (Frame.column i body) with
    | Frame.Object =>
        Ok (Frame.Typed
              (Frame.Make ["name"; "reads"]
                 ((fun r => [Str.strip (Frame.text (Frame.cell r i));
                             Frame.written (Frame.infer (Frame.column j body)) (Frame.cell r j)])
                    <$> body))
              [Frame.Object; Frame.infer (Frame.column j body)])
    | _ => Raise (AttributeError "Can only use .str accessor with string values!")
    end.
Proof.
  intros Hw Hi Hj. pose proof (refined_header_wide _ _ _ Hi Hj) as Hwide.
  unfold parse_report, Frame.read_csv_header.
  rewrite filter_not_blank.
  2:{ constructor; [done|]. eapply Forall_impl; [exact Hw|]. intros r Hr. simpl in Hr.
      by rewrite Hr. }
  rewrite read_rows_exact by exact Hw.
  rewrite (select_two "name" "new_est_reads" header _ _ i j) by done.
  unfold Frame.rename. cbn [Frame.frame Frame.columns Frame.rows Frame.dtypes].
  pose proof (position_lt _ _ _ Hi) as Hil. pose proof (position_lt _ _ _ Hj) as Hjl.
  rewrite !column_types_lookup by done. cbn [default].
  change ((fun c => if String.eqb c "new_est_reads" then "reads" else c)
            <$> ["name"; "new_est_reads"]) with ["name"; "reads"].
  rewrite strip_name.
  destruct (Frame.infer (Frame.column i body)) eqn:E; try done.
  do 3 f_equal. rewrite <- !list_fmap_compose.
  apply Forall_fmap_ext_1. eapply Forall_impl; [exact Hw|]. intros r Hlen.
  unfold compose. rewrite insert_strip.
  rewrite !(cell_written _ body r _ Hlen) by done.
  by rewrite E, written_object.
Qed.

(** Both formats at once. *)
Lemma parse_report_shape use_bracken (f : file) i j :
  report_shape use_bracken f i j →
  parse_report use_bracken f =
    match Frame.infer (Frame.column i (data_rows use_bracken f)) with
    | Frame.Object =>
        Ok (Frame.Typed
              (Frame.Make ["name"; "reads"]
                 ((fun r => [Str.strip (Frame.text (Frame.cell r i));
                             Frame.written
                               (Frame.infer (Frame.column j (data_rows use_bracken f)))
                               (Frame.cell r j)])
                    <$> retained use_bracken f))
              [Frame.Object; Frame.infer (Frame.column j (data_rows use_bracken f))])
    | _ => Raise (AttributeError "Can only use .str accessor with string values!")
    end.
Proof.
  destruct use_bracken; simpl.
  - intros (header & body & -> & Hw & Hi & Hj & _). by apply parse_refined.
  - intros ((Hs & _) & -> & ->). by apply parse_raw.
Qed.

(** A regular report is parsed into its records. *)
Lemma parse_regular use_bracken (f : file) i j :
  regular use_bracken f i j →
  ∃ dts,
    parse_report use_bracken f =
      Ok (Frame.Typed
            (Frame.Make ["name"; "reads"]
               ((fun r => [Str.strip (Frame.text (Frame.cell r i));
                           pretty (Frame.to_N (Frame.cell r j))])
                  <$> retained use_bracken f))
            dts).
Proof.
  intros (Hs & Hw & Hc). rewrite (parse_report_shape _ _ _ _ Hs).
  rewrite (infer_words _ _ Hw). eexists. do 3 f_equal.
  assert (Hne : data_rows use_bracken f ≠ []).
  { intros He. rewrite He in Hw. by apply Exists_nil in Hw. }
  rewrite (infer_small_counts _ _ Hne Hc).
  apply Forall_fmap_ext_1, Forall_forall. intros r Hr.
  f_equal. f_equal. apply written_small_count.
  rewrite Forall_forall in Hc. apply Hc.
  destruct use_bracken; simpl in *; [done|by apply species_rows_in].
Qed.

End Parsing.

(** ** The raw projection (C6) *)

Section RawProjection.

Example parse_clade_report :
  parse_report false clade_report =
    Ok (Frame.Typed (Frame.Make ["name"; "reads"] [["Escherichia coli"; "12"]])
                    [Frame.Object; Frame.Int64]).
Proof. vm_compute. reflexivity. Qed.




End RawProjection.

(** ** Trimming, empty names and counts (C7) *)

Section Normalization.

Example parse_blank_name_report :
  parse_report false blank_name_report =
    Ok (Frame.Typed
          (Frame.Make ["name"; "reads"] [["Escherichia coli"; "10"]; [""; "abc"]])
          [Frame.Object; Frame.Object]).
Proof. vm_compute. reflexivity. Qed.

Example parse_blank_name_refined :
  parse_report true blank_name_refined =
    Ok (Frame.Typed
          (Frame.Make ["name"; "reads"] [["Escherichia coli"; "12"]; [""; "abc"]])
          [Frame.Object; Frame.Object]).
Proof. vm_compute. reflexivity. Qed.

(** Counts written with leading zeros are emitted as the integers they
    write, and a name that is a missing-value token is emitted as
    missing. *)
Example parse_padded_report :
  parse_report false padded_report =
    Ok (Frame.Typed
          (Frame.Make ["name"; "reads"] [["Escherichia coli"; "7"]; [""; "12"]])
          [Frame.Object; Frame.Int64]).
Proof. vm_compute. reflexivity. Qed.




End Normalization.

(** ** Relations that every step of a sample respects *)

Section Steps.

Variable run : launch → gmap string file → result Z * gmap string file.

Variable R : relation state.
Hypothesis R_refl : ∀ s, R s s.
Hypothesis R_trans : ∀ s1 s2 s3, R s1 s2 → R s2 s3 → R s1 s3.
Hypothesis R_files : ∀ f s, R s (set_files f s).
Hypothesis R_run_cmd : ∀ cmd check, steps R (run_cmd run cmd check).

Lemma steps_ret {A} (a : A) : steps R (ret a).
Proof. intros s. apply R_refl. Qed.

Lemma steps_raise {A} e : steps R (@raise A e).
Proof. intros s. apply R_refl. Qed.

Lemma steps_pass : steps R pass.
Proof. intros s. apply R_refl. Qed.

Lemma steps_get_state : steps R get_state.
Proof. intros s. apply R_refl. Qed.

Lemma steps_set_files f : steps R (modify (set_files f)).
Proof. intros s. apply R_files. Qed.

Lemma steps_bind {A B} (m : M A) (k : A → M B) :
  steps R m → (∀ a, steps R (k a)) → steps R (bind m k).
Proof.
  intros Hm Hk s. unfold bind. specialize (Hm s).
  destruct (m s) as [[a|e] s1]; simpl in *; [|done].
  eapply R_trans; [exact Hm|apply Hk].
Qed.

Lemma steps_lift {A} (r : result A) : steps R (lift r).
Proof. destruct r; [apply steps_ret|apply steps_raise]. Qed.

Create HintDb steps.
Hint Resolve steps_ret steps_raise steps_pass steps_get_state steps_set_files
  steps_lift R_run_cmd : steps.

Ltac steps :=
  cbv zeta;
  repeat first
    [ solve [eauto with steps]
    | progress cbv zeta
    | apply steps_bind; [|intros ?]
    | match goal with
      | |- steps _ (if ?b then _ else _) => destruct b
      | |- steps _ (match ?x with _ => _ end) => destruct x
      end ].

Lemma steps_path_exists p : steps R (path_exists p).
Proof. unfold path_exists. steps. Qed.

Lemma steps_getsize p : steps R (getsize_is_zero p).
Proof. unfold getsize_is_zero. steps. Qed.

Lemma steps_os_remove p : steps R (os_remove p).
Proof. unfold os_remove. steps. Qed.

Lemma steps_read_file p : steps R (read_file p).
Proof. unfold read_file. steps. Qed.

Hint Resolve steps_path_exists steps_getsize steps_os_remove steps_read_file : steps.

Lemma steps_run_kraken2 sid fqs db th : steps R (run_kraken2 run sid fqs db th).
Proof. unfold run_kraken2. steps. Qed.

Lemma steps_run_bracken rep db rl lvl : steps R (run_bracken run rep db rl lvl).
Proof. unfold run_bracken. steps. Qed.

Lemma steps_parse p ub : steps R (parse_species_abundance p ub).
Proof. unfold parse_species_abundance. steps. Qed.

Hint Resolve steps_run_kraken2 steps_run_bracken steps_parse : steps.

Lemma steps_classify a sid fqs : steps R (classify run a sid fqs).
Proof. unfold classify. steps. Qed.

Lemma steps_cleanup a c : steps R (cleanup a c).
Proof. unfold cleanup. steps. Qed.

(** The rest of an iteration, for a relation that also ignores the table,
    its variables and the log. *)
Hypothesis R_csv : ∀ f s, R s (set_csv f s).
Hypothesis R_first : ∀ b s, R s (set_first b s).
Hypothesis R_success : ∀ f s, R s (set_success f s).
Hypothesis R_failed : ∀ f s, R s (set_failed f s).

Lemma steps_append_to_csv df : steps R (append_to_csv df).
Proof.
  intros s. unfold append_to_csv, bind, get_state, modify. simpl.
  eapply R_trans; [apply R_csv|]. eapply R_trans; [apply R_first|]. apply R_success.
Qed.

Lemma steps_try_except (m : M unit) (h : exn → M unit) :
  steps R m → (∀ e, steps R (h e)) → steps R (try_except m h).
Proof.
  intros Hm Hh s. unfold try_except. specialize (Hm s).
  destruct (m s) as [[[]|e] s1]; simpl in *; [done|].
  eapply R_trans; [exact Hm|apply Hh].
Qed.

Lemma steps_iteration a x : steps R (iteration run a x).
Proof.
  unfold iteration. apply steps_try_except.
  - unfold process_sample. apply steps_bind; [apply steps_classify|]. intros c.
    apply steps_bind; [apply steps_append_to_csv|]. intros _. apply steps_cleanup.
  - intros e s. apply R_failed.
Qed.

Lemma steps_classify_samples a samples : steps R (classify_samples run a samples).
Proof.
  induction samples as [|x rest IH]; [apply steps_pass|].
  simpl. apply steps_bind; [apply steps_iteration|]. intros _. exact IH.
Qed.

End Steps.

(** ** The loop of [main] *)

Section Loop.

Variable run : launch → gmap string file → result Z * gmap string file.

(** *** What leaves the table alone *)

Lemma untouched_refl s : untouched s s.
Proof. by repeat split. Qed.

Lemma untouched_trans s1 s2 s3 : untouched s1 s2 → untouched s2 s3 → untouched s1 s3.
Proof. unfold untouched. intros (?&?&?&?) (?&?&?&?). repeat split; congruence. Qed.

Lemma untouched_files f s : untouched s (set_files f s).
Proof. by repeat split. Qed.

Lemma untouched_run_cmd cmd check : steps untouched (run_cmd run cmd check).
Proof.
  intros s. unfold run_cmd, bind, get_state, modify. simpl.
  destruct (run _ (files s)) as [[rc|e] fs]; simpl; [|by repeat split].
  destruct (negb (rc =? 0)%Z), check; by repeat split.
Qed.

Lemma keeps_classify a sid fqs : steps untouched (classify run a sid fqs).
Proof.
  apply steps_classify;
    first [ exact untouched_refl | exact untouched_trans
          | exact untouched_files | exact untouched_run_cmd ].
Qed.

Lemma keeps_cleanup a c : steps untouched (cleanup a c).
Proof.
  apply steps_cleanup;
    first [ exact untouched_refl | exact untouched_trans
          | exact untouched_files | exact untouched_run_cmd ].
Qed.

(** *** One sample, then all of them *)

Lemma iteration_returns a x s : (iteration run a x s).1 = Ok tt.
Proof.
  unfold iteration, try_except.
  destruct (process_sample run a x.1 x.2 s) as [[[]|e] s1]; done.
Qed.

Lemma iteration_spec a x s :
  let s' := (iteration run a x s).2 in
  match outcome run a x s with
  | Ok f =>
      csv s' = csv s ++ Frame.to_csv_rows (first s) f ∧
      first s' = false ∧ success s' = S (success s) ∧
      ∃ l, failed s' = failed s ++ l
  | Raise e =>
      csv s' = csv s ∧ first s' = first s ∧ success s' = success s ∧
      failed s' = failed s ++ [(x.1, e)]
  end.
Proof.
  unfold iteration, try_except, process_sample, outcome, bind.
  pose proof (keeps_classify a x.1 x.2 s) as Hc.
  destruct (classify run a x.1 x.2 s) as [[c|e] s1]; simpl in Hc.
  - destruct Hc as (Hcsv & Hfirst & Hsucc & Hfail).
    unfold append_to_csv, bind, get_state, modify. simpl.
    match goal with |- context [cleanup a c ?s2] =>
      pose proof (keeps_cleanup a c s2) as Hk;
      destruct (cleanup a c s2) as [[[]|e] s3] end;
      simpl in *; destruct Hk as (-> & -> & -> & Hf3);
      unfold set_csv, set_first, set_success; simpl;
      rewrite Hcsv, Hfirst, Hsucc; simpl in Hf3; rewrite Hfail in Hf3;
      (split; [done|]); (split; [done|]); (split; [done|]).
    + exists []. by rewrite app_nil_r.
    + exists [(x.1, e)]. by rewrite Hf3.
  - destruct Hc as (Hcsv & Hfirst & Hsucc & Hfail).
    unfold modify, set_failed. simpl. by rewrite Hcsv, Hfirst, Hsucc, Hfail.
Qed.

Lemma classify_samples_returns a samples s : (classify_samples run a samples s).1 = Ok tt.
Proof.
  revert s. induction samples as [|x rest IH]; intros s; [done|].
  simpl. unfold bind. pose proof (iteration_returns a x s) as Hi.
  destruct (iteration run a x s) as [[[]|e] s1]; [|done]. apply IH.
Qed.

Lemma classify_samples_step a x rest s :
  classify_samples run a (x :: rest) s = classify_samples run a rest (iteration run a x s).2.
Proof.
  simpl. unfold bind. pose proof (iteration_returns a x s) as Hi.
  by destruct (iteration run a x s) as [[[]|e] s1].
Qed.

Lemma classify_samples_spec a samples s :
  let s' := (classify_samples run a samples s).2 in
  let fs := frames (outcomes run a samples s) in
  csv s' = csv s ++ table_rows (first s) fs ∧
  success s' = success s + length fs ∧
  first s' = first s && bool_decide (fs = []).
Proof.
  revert s. induction samples as [|x rest IH]; intros s.
  - simpl. rewrite app_nil_r, Nat.add_0_r, andb_true_r. done.
  - rewrite classify_samples_step. simpl outcomes.
    pose proof (iteration_spec a x s) as Hx. simpl in Hx.
    destruct (IH (iteration run a x s).2) as (Hcsv & Hsucc & Hfirst).
    destruct (outcome run a x s) as [f|e]; simpl.
    + destruct Hx as (Hx1 & Hx2 & Hx3 & _).
      rewrite Hcsv, Hsucc, Hfirst, Hx1, Hx2, Hx3.
      rewrite andb_false_r. rewrite <- app_assoc. repeat split; lia.
    + destruct Hx as (Hx1 & Hx2 & Hx3 & _).
      by rewrite Hcsv, Hsucc, Hfirst, Hx1, Hx2, Hx3.
Qed.

Lemma classify_samples_app a done rest s :
  classify_samples run a (done ++ rest) s =
  classify_samples run a rest (classify_samples run a done s).2.
Proof.
  revert s. induction done as [|x done IH]; intros s; [done|].
  change ((x :: done) ++ rest) with (x :: (done ++ rest)).
  rewrite !classify_samples_step. apply IH.
Qed.

Lemma outcomes_app a done rest s :
  outcomes run a (done ++ rest) s =
  outcomes run a done s ++ outcomes run a rest (classify_samples run a done s).2.
Proof.
  revert s. induction done as [|x done IH]; intros s; [done|].
  change ((x :: done) ++ rest) with (x :: (done ++ rest)).
  rewrite classify_samples_step. simpl outcomes. by rewrite IH.
Qed.

Lemma length_outcomes a samples s : length (outcomes run a samples s) = length samples.
Proof.
  revert s. induction samples as [|x rest IH]; intros s; [done|].
  simpl. by rewrite IH.
Qed.

Lemma frames_failures_length os : length (frames os) + length (failures os) = length os.
Proof.
  induction os as [|[sid [f|e]] os IH]; simpl; lia.
Qed.

(** Every failure of the classification is in the log once the loop ends. *)
Lemma failures_logged a samples s :
  ∃ l, failed (classify_samples run a samples s).2 = failed s ++ l ∧
       ∀ x, x ∈ failures (outcomes run a samples s) → x ∈ l.
Proof.
  revert s. induction samples as [|x rest IH]; intros s.
  - exists []. rewrite app_nil_r. split; [done|]. simpl. by intros ? ?%elem_of_nil.
  - rewrite classify_samples_step. simpl outcomes.
    pose proof (iteration_spec a x s) as Hx. simpl in Hx.
    destruct (IH (iteration run a x s).2) as (l & Hl & Hin).
    destruct (outcome run a x s) as [f|e]; simpl.
    + destruct Hx as (_ & _ & _ & l0 & Hl0).
      exists (l0 ++ l). rewrite Hl, Hl0, app_assoc. split; [done|].
      intros y Hy. apply elem_of_app. right. by apply Hin.
    + destruct Hx as (_ & _ & _ & Hl0).
      exists ((x.1, e) :: l). rewrite Hl, Hl0, <- app_assoc. split; [done|].
      intros y [->|Hy]%elem_of_cons; [by left|]. right. by apply Hin.
Qed.

(** *** The frame of a sample *)

Lemma bind_Ok {A B} (m : M A) (k : A → M B) s b s' :
  bind m k s = (Ok b, s') → ∃ a s1, m s = (Ok a, s1) ∧ k a s1 = (Ok b, s').
Proof.
  unfold bind. destruct (m s) as [[a|e] s1]; [|done]. eauto.
Qed.

Lemma lift_Ok {A} (r : result A) s a s' : lift r s = (Ok a, s') → r = Ok a.
Proof. destruct r; simpl; unfold ret, raise; congruence. Qed.

Lemma parse_species_abundance_Ok p ub s df s' :
  parse_species_abundance p ub s = (Ok df, s') →
  files s !! p ≠ None ∧ parse_report ub (default [] (files s !! p)) = Ok df.
Proof.
  unfold parse_species_abundance, read_file. intros H.
  apply bind_Ok in H as (f & s1 & H1 & H2).
  apply bind_Ok in H1 as (s2 & s3 & [= <- <-] & H1).
  destruct (files s !! p) as [f'|] eqn:E; [|done].
  injection H1 as <- <-. apply lift_Ok in H2. done.
Qed.

Lemma transpose_parsed (records : list (list string)) dts :
  Frame.transpose_series "name" "reads"
    (Frame.Typed (Frame.Make ["name"; "reads"] records) dts) =
    Ok (Frame.Make ((fun r => Frame.cell r 0) <$> records)
                   [(fun r => Frame.cell r 1) <$> records]).
Proof. reflexivity. Qed.

Lemma transpose_series_Ok index value df dft :
  Frame.transpose_series index value df = Ok dft →
  ∃ i j, dft = Frame.Make ((fun r => Frame.cell r i) <$> Frame.rows (Frame.frame df))
                          [(fun r => Frame.cell r j) <$> Frame.rows (Frame.frame df)].
Proof.
  unfold Frame.transpose_series.
  destruct (Frame.position index _) as [i|]; [|done].
  destruct (Frame.position value (List.filter _ _)); [|done].
  destruct (Frame.position value _) as [j|]; [|done].
  intros [= <-]. by exists i, j.
Qed.

Lemma outcome_frame a x s f :
  outcome run a x s = Ok f →
  ∃ names counts, length names = length counts ∧ f = sample_frame x.1 names counts.
Proof.
  unfold outcome.
  destruct (classify run a x.1 x.2 s) as [[c|e] s1] eqn:Hc; [|done].
  intros [= <-]. unfold classify in Hc.
  apply bind_Ok in Hc as (kr & s2 & _ & Hc).
  apply bind_Ok in Hc as (rtu & s3 & _ & Hc).
  apply bind_Ok in Hc as (df & s4 & Hp & Hc).
  apply bind_Ok in Hc as (dft & s5 & Ht & Hc).
  injection Hc as <- <-. simpl.
  apply lift_Ok, transpose_series_Ok in Ht as (i & j & ->).
  eexists _, _. split; [|done]. by rewrite !length_fmap.
Qed.

Lemma read_file_returns p s f s' : read_file p s = (Ok f, s') → s' = s.
Proof.
  unfold read_file, bind, get_state. destruct (files s !! p); [|done].
  by intros [= _ <-].
Qed.

(** The frame of a sample whose report is regular. *)
Lemma outcome_regular a x s (report : file) i j :
  report_read run a x s = Some report →
  regular (use_bracken a) report i j →
  outcome run a x s =
    Ok (sample_frame x.1 (taxa (use_bracken a) report i) (counts (use_bracken a) report j)).
Proof.
  intros Hr Hreg. destruct (parse_regular _ _ _ _ Hreg) as (dts & Hp).
  unfold report_read in Hr. unfold outcome, classify, parse_species_abundance.
  unfold bind in *.
  destruct (run_kraken2 run x.1 x.2 (kraken_db a) (threads a) s) as [[kr|e] s1]; [|done].
  destruct ((if use_bracken a
             then run_bracken run kr (kraken_db a) (read_length a) "S"
             else ret kr) s1) as [[rtu|e] s2]; [|done].
  destruct (read_file rtu s2) as [[f|e] s3] eqn:Hf; [|done].
  injection Hr as ->.
  rewrite Hp. cbn [lift ret]. rewrite transpose_parsed. cbn [lift ret].
  unfold taxa, counts. by rewrite <- !list_fmap_compose.
Qed.

Lemma sample_frame_plain sid names counts :
  "SampleID" ∉ names →
  sample_frame sid names counts = Frame.Make (names ++ ["SampleID"]) [counts ++ [sid]].
Proof.
  intros H. unfold sample_frame, Frame.assign. cbn [Frame.columns Frame.rows].
  by rewrite bool_decide_false.
Qed.

Lemma sample_frame_row sid names counts :
  length names = length counts →
  ∃ r, Frame.rows (sample_frame sid names counts) = [r] ∧
       length r = length (Frame.columns (sample_frame sid names counts)).
Proof.
  intros Hlen. unfold sample_frame, Frame.assign. simpl.
  case_bool_decide; simpl; eexists; (split; [done|]).
  - rewrite length_zip_with. lia.
  - rewrite !length_app. simpl. lia.
Qed.

Lemma outcome_single_row a x s f :
  outcome run a x s = Ok f →
  ∃ r, Frame.rows f = [r] ∧ length r = length (Frame.columns f).
Proof.
  intros (names & counts & Hlen & ->)%outcome_frame.
  by apply sample_frame_row.
Qed.

Lemma frames_single_row a samples s :
  Forall (fun f => ∃ r, Frame.rows f = [r] ∧ length r = length (Frame.columns f))
    (frames (outcomes run a samples s)).
Proof.
  revert s. induction samples as [|x rest IH]; intros s; [constructor|].
  simpl. destruct (outcome run a x s) as [f|e] eqn:Ho; simpl; [|apply IH].
  constructor; [|apply IH]. by eapply outcome_single_row.
Qed.

End Loop.

(** ** The table that the loop leaves *)

Section Table.

Variable run : launch → gmap string file → result Z * gmap string file.

Lemma table_rows_false fs : table_rows false fs = concat (Frame.rows <$> fs).
Proof.
  induction fs as [|f fs IH]; [done|].
  simpl. by rewrite IH.
Qed.

Lemma table_rows_split first fs :
  table_rows first fs = header_rows first fs ++ concat (Frame.rows <$> fs).
Proof.
  destruct fs as [|f fs]; [done|].
  simpl. rewrite table_rows_false. unfold Frame.to_csv_rows.
  destruct first; simpl; by rewrite <- ?app_assoc.
Qed.

Lemma single_rows_length (fs : list Frame.t) :
  Forall (fun f => ∃ r, Frame.rows f = [r] ∧ length r = length (Frame.columns f)) fs →
  length (concat (Frame.rows <$> fs)) = length fs.
Proof.
  induction 1 as [|f fs (r & Hr & _) _ IH]; [done|].
  rewrite fmap_cons. simpl. rewrite length_app, Hr, IH. done.
Qed.

Lemma uniform_rows_complete cols (fs : list Frame.t) :
  Forall (fun f => ∃ r, Frame.rows f = [r] ∧ length r = length (Frame.columns f)) fs →
  Forall (fun f => Frame.columns f = cols) fs →
  Forall (fun r : list string => length r = length cols) (table_rows true fs).
Proof.
  intros Hrow Hcols. rewrite table_rows_split. apply Forall_app. split.
  - destruct fs as [|f fs]; [constructor|]. simpl.
    apply Forall_cons_1 in Hcols as [-> _]. by repeat constructor.
  - induction Hrow as [|f fs (r & Hr & Hlen) _ IH]; [constructor|].
    apply Forall_cons_1 in Hcols as [Hc Hcols].
    rewrite fmap_cons. simpl. apply Forall_app. split; [|by apply IH].
    rewrite Hr. repeat constructor. by rewrite Hlen, Hc.
Qed.

End Table.

(** ** Column alignment (C1) *)

Section Alignment.

Example scenario_discovery :
  Discovery.discover_samples scenario_listing (input_dir scenario_args) = Ok scenario_samples.
Proof. reflexivity. Qed.

Example scenario_table :
  csv (classify_samples scenario_tool scenario_args scenario_samples fresh).2 =
    [ ["Ecoli"; "Bsubtilis"; "SampleID"];
      ["10"; "0"; "S1"];
      ["5"; "3"; "S2"] ].
Proof. vm_compute. reflexivity. Qed.

Example scenario_table_after_S1 :
  csv (classify_samples scenario_tool scenario_args [("S1", ["/in/S1.fastq"])] fresh).2 =
    [ ["Ecoli"; "Bsubtilis"; "SampleID"];
      ["10"; "0"; "S1"] ].
Proof. vm_compute. reflexivity. Qed.

Example scenario_frames :
  frames (outcomes scenario_tool scenario_args scenario_samples fresh) =
    [ Frame.Make ["Ecoli"; "Bsubtilis"; "SampleID"] [["10"; "0"; "S1"]];
      Frame.Make ["Ecoli"; "Lactobacillus"; "SampleID"] [["5"; "3"; "S2"]] ].
Proof. vm_compute. reflexivity. Qed.


End Alignment.

Section Incremental.

Variable run : launch → gmap string file → result Z * gmap string file.


End Incremental.


(** ** One failing sample among several (C5), and what it leaves (C4) *)

Section Cohort.

Example cohort_discovery :
  Discovery.discover_samples cohort_listing (input_dir cohort_args) = Ok cohort_samples.
Proof. reflexivity. Qed.

Example cohort_failures :
  failures (outcomes cohort_tool cohort_args cohort_samples fresh) =
    [("T2", KeyError "new_est_reads")].
Proof. vm_compute. reflexivity. Qed.

Example cohort_frames :
  frames (outcomes cohort_tool cohort_args cohort_samples fresh) =
    [ Frame.Make ["Ecoli"; "SampleID"] [["10"; "T1"]];
      Frame.Make ["Ecoli"; "Lactobacillus"; "SampleID"] [["5"; "3"; "T3"]] ].
Proof. vm_compute. reflexivity. Qed.

Example cohort_run :
  let r := main cohort_tool cohort_args cohort_listing fresh in
  r.1 = Ok (Summary 2 3) ∧
  csv r.2 = [ ["Ecoli"; "SampleID"]; ["10"; "T1"]; ["5"; "3"; "T3"] ] ∧
  failed r.2 = [("T2", KeyError "new_est_reads")].
Proof. vm_compute. done. Qed.


(** C4 on the cohort: when [main] returns, the classifier report and
    the refined report of the failed sample T2 are still there, while
    those of T1 and T3, which succeeded, are gone. *)
Theorem failed_sample_keeps_its_artifacts :
  let s' := (main cohort_tool cohort_args cohort_listing fresh).2 in
  failed s' = [("T2", KeyError "new_est_reads")] ∧
  files s' !! "/tmp/T2.kraken2.report" = Some raw_report ∧
  files s' !! "/tmp/T2.bracken" = Some t2_refined ∧
  files s' !! "/tmp/T1.kraken2.report" = None ∧
  files s' !! "/tmp/T1.bracken" = None ∧
  files s' !! "/tmp/T3.kraken2.report" = None ∧
  files s' !! "/tmp/T3.bracken" = None.
Proof. vm_compute. done. Qed.

End Cohort.

Section Isolation.

Variable run : launch → gmap string file → result Z * gmap string file.

Lemma validate_inputs_ok a fs s0 :
  valid_inputs a fs s0 → validate_inputs a fs s0 = (Ok tt, s0).
Proof.
  intros (Hin & Hdb & Hh).
  unfold validate_inputs, isdir, bind, get_state, ret, Discovery.exists_.
  cbv beta iota zeta.
  rewrite (bool_decide_true _ Hin). cbn [negb]. cbv beta iota zeta.
  rewrite (bool_decide_true _ Hdb). cbn [negb]. cbv beta iota zeta.
  destruct Hh as [Hh|Hh]; rewrite (bool_decide_true _ Hh); [done|].
  by rewrite orb_true_r.
Qed.

Lemma validate_inputs_state a fs s0 : (validate_inputs a fs s0).2 = s0.
Proof.
  unfold validate_inputs, isdir, bind, get_state, ret, raise, pass.
  repeat (case_bool_decide; simpl; try done); by destruct (Discovery.exists_ _ _).
Qed.

Lemma main_unfold a fs s0 samples :
  valid_inputs a fs s0 →
  Discovery.discover_samples fs (input_dir a) = Ok samples →
  main run a fs s0 =
    (Ok (Summary (success (classify_samples run a samples (loop_entry s0)).2)
                 (length samples)),
     (classify_samples run a samples (loop_entry s0)).2).
Proof.
  intros Hv Hd. unfold main. rewrite (validate_inputs_ok _ _ _ Hv), Hd.
  fold (loop_entry s0).
  pose proof (classify_samples_returns run a samples (loop_entry s0)) as Hr.
  by destruct (classify_samples run a samples (loop_entry s0)) as [[[]|e] s'].
Qed.


End Isolation.


(** ** Artifacts on the path without exception *)

Section Cleanup.

Variable run : launch → gmap string file → result Z * gmap string file.

Lemma run_kraken2_path sid fqs db th s r s' :
  run_kraken2 run sid fqs db th s = (Ok r, s') → r = kraken2_report sid.
Proof.
  unfold run_kraken2. intros H.
  apply bind_Ok in H as (rc & s1 & _ & H).
  apply bind_Ok in H as (present & s2 & _ & H).
  apply bind_Ok in H as (empty & s3 & _ & H).
  destruct empty; [done|].
  apply bind_Ok in H as (out & s4 & _ & H).
  apply bind_Ok in H as (u & s5 & _ & H).
  by injection H as <- _.
Qed.

Lemma run_bracken_path rep db rl lvl s r s' :
  run_bracken run rep db rl lvl s = (Ok r, s') →
  r = Str.replace ".kraken2.report" ".bracken" rep.
Proof.
  unfold run_bracken. intros H.
  apply bind_Ok in H as (rc & s1 & _ & H).
  apply bind_Ok in H as (present & s2 & _ & H).
  destruct present; [|done]. by injection H as <- _.
Qed.

Lemma os_remove_Ok p s u s' :
  os_remove p s = (Ok u, s') → s' = set_files (delete p) s.
Proof.
  unfold os_remove. intros H.
  apply bind_Ok in H as (s1 & s2 & [= <- <-] & H).
  destruct (files s !! p); [|done]. by injection H as _ <-.
Qed.

(** When the [try] block of a sample ends without exception, the
    classifier report of the sample and, with refinement, its refined
    report are no longer among the files. *)
Lemma process_sample_removes_artifacts a sid fqs s s' :
  process_sample run a sid fqs s = (Ok tt, s') →
  files s' !! kraken2_report sid = None ∧
  (use_bracken a = true →
   files s' !! Str.replace ".kraken2.report" ".bracken" (kraken2_report sid) = None).
Proof.
  unfold process_sample. intros H.
  apply bind_Ok in H as (c & s1 & Hc & H).
  apply bind_Ok in H as (u & s2 & _ & H).
  unfold classify in Hc.
  apply bind_Ok in Hc as (kr & t1 & Hkr & Hc).
  apply bind_Ok in Hc as (rtu & t2 & Hrtu & Hc).
  apply bind_Ok in Hc as (df & t3 & _ & Hc).
  apply bind_Ok in Hc as (dft & t4 & _ & Hc).
  injection Hc as <- _.
  apply run_kraken2_path in Hkr as ->.
  unfold cleanup in H. simpl in H.
  apply bind_Ok in H as (u1 & s3 & Hr1 & H).
  apply os_remove_Ok in Hr1 as ->.
  destruct (use_bracken a).
  - apply run_bracken_path in Hrtu as ->.
    apply os_remove_Ok in H as ->. simpl.
    split; [|intros _; apply lookup_delete_eq].
    apply lookup_delete_None. right. apply lookup_delete_eq.
  - injection H as <-. simpl. split; [apply lookup_delete_eq|done].
Qed.

End Cleanup.

(** ** A missing or empty classifier report (C8) *)

Section EmptyReport.

Variable run : launch → gmap string file → result Z * gmap string file.

Lemma run_kraken2_empty sid fqs db th s rc fs' :
  run (Launch (inl (Str.join " " (kraken2_cmd sid fqs db th))) true) (files s) = (Ok rc, fs') →
  fs' !! kraken2_report sid = None ∨ fs' !! kraken2_report sid = Some [] →
  (run_kraken2 run sid fqs db th s).1 =
    Raise (if (rc =? 0)%Z
           then RuntimeError ("Kraken2 produced empty report for " +:+ sid)
           else CalledProcessError rc (Str.join " " (kraken2_cmd sid fqs db th))).
Proof.
  intros Hrun Hrep.
  unfold run_kraken2, run_cmd, bind, get_state, modify. cbv beta iota zeta.
  rewrite Hrun. cbv beta iota zeta. unfold lift, raise, ret. cbv beta iota zeta.
  destruct (rc =? 0)%Z; [|done]. cbn [andb negb].
  unfold path_exists, getsize_is_zero, bind, get_state, ret, set_files, set_calls.
  cbn [files calls csv first success failed fst snd].
  destruct Hrep as [Hrep|Hrep]; rewrite Hrep.
  - rewrite bool_decide_false by (by intros [? ?]). done.
  - rewrite bool_decide_true by eauto. cbn [files]. rewrite Hrep.
    by rewrite bool_decide_true.
Qed.

(** C8: when the classifier has run and its report is missing or of
    zero length, the [try] block of the sample ends with an exception
    before anything is written: [RuntimeError] with the empty-report
    message when the classifier exited with status 0, and the
    [CalledProcessError] of that exit status otherwise. The table, [first] and the
    count of successes stay as they were, the failure is logged under
    the sample's identifier, and the loop goes on with the samples
    left. *)
Theorem empty_report_fails_the_sample (a : args) (x : string * list string)
    (rest : Dict.t (list string)) (s : state) (rc : Z)
    (fs' : gmap string (list (list string))) :
  let cmd := Str.join " " (kraken2_cmd x.1 x.2 (kraken_db a) (threads a)) in
  run (Launch (inl cmd) true) (files s) = (Ok rc, fs') →
  fs' !! kraken2_report x.1 = None ∨ fs' !! kraken2_report x.1 = Some [] →
  let e := if (rc =? 0)%Z
           then RuntimeError ("Kraken2 produced empty report for " +:+ x.1)
           else CalledProcessError rc cmd in
  let s' := (iteration run a x s).2 in
  outcome run a x s = Raise e ∧
  csv s' = csv s ∧ first s' = first s ∧ success s' = success s ∧
  failed s' = failed s ++ [(x.1, e)] ∧
  classify_samples run a (x :: rest) s = classify_samples run a rest s'.
Proof.
  intros cmd Hrun Hrep e s'.
  assert (Ho : outcome run a x s = Raise e).
  { unfold outcome, classify, bind.
    pose proof (run_kraken2_empty _ _ _ _ _ _ _ Hrun Hrep) as Hk.
    destruct (run_kraken2 run x.1 x.2 (kraken_db a) (threads a) s) as [[r|e'] s1];
      simpl in Hk; [done|]. by injection Hk as ->. }
  split; [exact Ho|].
  pose proof (iteration_spec run a x s) as Hi. simpl in Hi. rewrite Ho in Hi.
  destruct Hi as (H1 & H2 & H3 & H4).
  repeat (split; [done|]). apply classify_samples_step.
Qed.

End EmptyReport.

Lemma empty_report_fails_the_sample_witness :
  outcome silent_tool scenario_args ("S1", ["/in/S1.fastq"]) fresh =
    Raise (RuntimeError "Kraken2 produced empty report for S1") ∧
  csv (iteration silent_tool scenario_args ("S1", ["/in/S1.fastq"]) fresh).2 = [] ∧
  first (iteration silent_tool scenario_args ("S1", ["/in/S1.fastq"]) fresh).2 = true ∧
  success (iteration silent_tool scenario_args ("S1", ["/in/S1.fastq"]) fresh).2 = 0 ∧
  failed (iteration silent_tool scenario_args ("S1", ["/in/S1.fastq"]) fresh).2 =
    [("S1", RuntimeError "Kraken2 produced empty report for S1")] ∧
  classify_samples silent_tool scenario_args
    [("S1", ["/in/S1.fastq"]); ("S2", ["/in/S2.fastq"])] fresh =
  classify_samples silent_tool scenario_args [("S2", ["/in/S2.fastq"])]
    (iteration silent_tool scenario_args ("S1", ["/in/S1.fastq"]) fresh).2.
Proof.
  exact (empty_report_fails_the_sample silent_tool scenario_args
           ("S1", ["/in/S1.fastq"]) [("S2", ["/in/S2.fastq"])] fresh 0%Z ∅
           eq_refl (or_introl eq_refl)).
Defined.

(** ** How the external tools are launched (C2) *)

Section Launching.

Example cohort_first_calls :
  take 2 (calls (classify_samples cohort_tool cohort_args cohort_samples fresh).2) =
    [ Launch (inl ("kraken2 --db '/db' --threads 4 --use-names --report-zero-counts "
                   +:+ "--memory-mapping --report '/tmp/T1.kraken2.report' "
                   +:+ "--output '/tmp/T1.kraken2.out' '/in/T1.fastq'")) true;
      Launch (inl ("bracken -d '/db' -i '/tmp/T1.kraken2.report' "
                   +:+ "-o '/tmp/T1.bracken' -r 150 -l S")) true ].
Proof. vm_compute. reflexivity. Qed.

(** Two different pairs of read paths give the same command string:
    the string does not determine the arguments. *)
Example command_string_is_ambiguous :
  ["/in/a.fastq' '/in/b"; "/in/c.fastq"] ≠ ["/in/a.fastq"; "/in/b' '/in/c.fastq"] ∧
  Str.join " " (kraken2_cmd "X" ["/in/a.fastq' '/in/b"; "/in/c.fastq"] "/db" 4) =
  Str.join " " (kraken2_cmd "X" ["/in/a.fastq"; "/in/b' '/in/c.fastq"] "/db" 4).
Proof. split; [discriminate|]. vm_compute. reflexivity. Qed.


Variable run : launch → gmap string file → result Z * gmap string file.

Lemma shell_calls_same s s' : calls s' = calls s → shell_calls s s'.
Proof. intros H. exists []. by rewrite app_nil_r. Qed.

Lemma shell_calls_refl s : shell_calls s s.
Proof. by apply shell_calls_same. Qed.

Lemma shell_calls_trans s1 s2 s3 : shell_calls s1 s2 → shell_calls s2 s3 → shell_calls s1 s3.
Proof.
  intros (n1 & H1 & F1) (n2 & H2 & F2). exists (n1 ++ n2).
  rewrite H2, H1, app_assoc. split; [done|]. by apply Forall_app.
Qed.

Lemma run_cmd_calls cmd check s :
  calls (run_cmd run cmd check s).2 = calls s ++ [Launch (inl cmd) true].
Proof.
  unfold run_cmd, bind, get_state, modify. cbv beta iota zeta.
  destruct (run _ (files s)) as [[rc|e] fs']; cbv beta iota zeta; simpl; [|done].
  by destruct (check && negb (rc =? 0)%Z).
Qed.

Lemma shell_calls_run_cmd cmd check : steps shell_calls (run_cmd run cmd check).
Proof.
  intros s. exists [Launch (inl cmd) true]. split; [apply run_cmd_calls|].
  repeat constructor. by exists cmd.
Qed.

Lemma run_kraken2_calls sid fqs db th s :
  calls (run_kraken2 run sid fqs db th s).2 =
  calls s ++ [Launch (inl (Str.join " " (kraken2_cmd sid fqs db th))) true].
Proof.
  unfold run_kraken2, bind.
  pose proof (run_cmd_calls (Str.join " " (kraken2_cmd sid fqs db th)) true s) as Hc.
  destruct (run_cmd run _ true s) as [[rc|e] s1]; cbn [snd] in Hc; [|done].
  rewrite <- Hc.
  unfold path_exists, getsize_is_zero, os_remove, bind, get_state, modify, ret, raise, pass.
  repeat (case_match; simplify_eq; simpl; try done).
Qed.

Lemma run_bracken_calls rep db rl lvl s :
  calls (run_bracken run rep db rl lvl s).2 =
  calls s ++ [Launch (inl (bracken_cmd rep db rl lvl)) true].
Proof.
  unfold run_bracken, bind.
  pose proof (run_cmd_calls (bracken_cmd rep db rl lvl) true s) as Hc.
  destruct (run_cmd run _ true s) as [[rc|e] s1]; cbn [snd] in Hc; [|done].
  rewrite <- Hc.
  unfold path_exists, bind, get_state, ret, raise.
  repeat (case_match; simplify_eq; simpl; try done).
Qed.


End Launching.

(** ** Dictionaries *)

Section DictFacts.

Context {V : Type}.
Implicit Types (d : list (string * V)) (k : string) (v : V).

Lemma get_set d k v k' :
  Dict.get (Dict.set d k v) k' = if String.eqb k k' then Some v else Dict.get d k'.
Proof.
  induction d as [|[k0 v0] d IH]; simpl.
  - by destruct (String.eqb_spec k k').
  - destruct (String.eqb_spec k0 k) as [->|Hne]; simpl.
    + by destruct (String.eqb_spec k k').
    + rewrite IH. destruct (String.eqb_spec k0 k') as [->|Hne'].
      * destruct (String.eqb_spec k k'); [congruence|done].
      * done.
Qed.

Lemma set_fresh d k v : k ∉ Dict.keys d → Dict.set d k v = d ++ [(k, v)].
Proof.
  unfold Dict.keys. induction d as [|[k0 v0] d IH]; intros Hk; [done|].
  rewrite fmap_cons, not_elem_of_cons in Hk. destruct Hk as [Hne Hk]. simpl in *.
  destruct (String.eqb_spec k0 k) as [->|_]; [done|]. by rewrite IH.
Qed.

Lemma keys_set d k v :
  Dict.keys (Dict.set d k v) =
  if bool_decide (k ∈ Dict.keys d) then Dict.keys d else Dict.keys d ++ [k].
Proof.
  unfold Dict.keys. induction d as [|[k0 v0] d IH]; [done|].
  cbn [Dict.set]. rewrite (fmap_cons fst (k0, v0) d). cbn [fst].
  destruct (String.eqb_spec k0 k) as [->|Hne].
  - rewrite bool_decide_true by apply list_elem_of_here. by rewrite fmap_cons.
  - rewrite fmap_cons, IH. cbn [fst].
    case_bool_decide as H1; case_bool_decide as H2; try done; exfalso.
    + apply H2. by apply list_elem_of_further.
    + apply elem_of_cons in H2 as [->|H2]; [by apply Hne|by apply H1].
Qed.

Lemma NoDup_keys_set d k v : NoDup (Dict.keys d) → NoDup (Dict.keys (Dict.set d k v)).
Proof.
  intros Hd. rewrite keys_set. case_bool_decide as Hk; [done|].
  apply NoDup_app. split; [done|]. split; [|apply NoDup_singleton].
  intros x Hx ->%list_elem_of_singleton. by apply Hk.
Qed.

Lemma get_update d entries k :
  Dict.get (update d entries) k =
  match last_entry k entries with
  | Some v => Some v
  | None => Dict.get d k
  end.
Proof.
  revert d. induction entries as [|[k' v] rest IH]; intros d; [done|].
  simpl. rewrite IH. destruct (last_entry k rest); [done|].
  rewrite get_set. by destruct (String.eqb k' k).
Qed.

Lemma NoDup_keys_update d entries :
  NoDup (Dict.keys d) → NoDup (Dict.keys (update d entries)).
Proof.
  revert d. induction entries as [|e rest IH]; intros d Hd; [done|].
  simpl. apply IH. by apply NoDup_keys_set.
Qed.

Lemma update_fresh d entries :
  NoDup (Dict.keys (d ++ entries)) → update d entries = d ++ entries.
Proof.
  revert d. induction entries as [|[k v] rest IH]; intros d Hd.
  - simpl. by rewrite app_nil_r.
  - cbn [update foldl fst snd]. fold (update (Dict.set d k v) rest).
    assert (Hk : k ∉ Dict.keys d).
    { unfold Dict.keys in *. rewrite fmap_app in Hd.
      apply NoDup_app in Hd as (_ & Hd & _). intros Hk.
      apply (Hd k Hk). rewrite fmap_cons. apply list_elem_of_here. }
    rewrite set_fresh by done.
    rewrite IH; [by rewrite <- app_assoc|].
    by rewrite <- app_assoc.
Qed.

End DictFacts.

(** ** The read-2 partner of a path *)

Section Partner.

Lemma startswith_spec p s : Str.startswith p s = true ↔ ∃ t, s = p +:+ t.
Proof.
  unfold Str.startswith. revert s. induction p as [|a p IH]; intros s.
  - split; [by exists s|]. intros _. by destruct s.
  - destruct s as [|b s]; simpl; [split; [done|by intros [t Ht]]|].
    destruct (ascii_dec a b) as [->|Hne].
    + rewrite IH. split; intros [t Ht]; exists t.
      * by rewrite Ht.
      * by injection Ht.
    + split; [done|]. intros [t Ht]. injection Ht as Hab _. by destruct Hne.
Qed.

Lemma contains_cons sub c t :
  Str.contains sub t = true → Str.contains sub (String c t) = true.
Proof. intros H. simpl. rewrite H. apply orb_true_r. Qed.

Lemma contains_basename sub p :
  Str.contains sub (Path.basename p) = true → Str.contains sub p = true.
Proof.
  induction p as [|c t IH]; [done|].
  cbn [Path.basename]. destruct (Str.contains "/" t).
  - intros H. apply contains_cons. by apply IH.
  - destruct (Ascii.eqb c "/"); [apply contains_cons|done].
Qed.

Local Abbreviation r12 := (Str.replace_from "_R1" "_R2").

Lemma replaced_head s c r :
  r12 0 s = String c r → c ≠ "_"%char →
  ∃ t, s = String c t ∧ r = r12 0 t.
Proof.
  destruct s as [|c0 t]; [done|]. cbn [Str.replace_from].
  destruct (Str.startswith "_R1" (String c0 t)).
  - simpl. intros [= <- _] Hc. done.
  - intros [= <- <-] _. eauto.
Qed.

Lemma startswith_replaced k s : Str.startswith "_R1" (r12 k s) = false.
Proof.
  revert k. induction s as [|c t IH]; intros k; [done|].
  destruct k as [|k]; [|apply IH]. cbn [Str.replace_from].
  destruct (Str.startswith "_R1" (String c t)) eqn:Hp; [done|].
  apply not_true_is_false. intros [t' Ht']%startswith_spec.
  simpl in Ht'. injection Ht' as -> Ht'.
  apply replaced_head in Ht' as (t1 & -> & Ht'); [|done].
  symmetry in Ht'. apply replaced_head in Ht' as (t2 & -> & _); [|done].
  assert (Hq : Str.startswith "_R1" (String "_" (String "R" (String "1" t2))) = true)
    by (apply startswith_spec; by exists t2).
  congruence.
Qed.

Lemma contains_replaced k s : Str.contains "_R1" (r12 k s) = false.
Proof.
  revert k. induction s as [|c t IH]; intros k; [done|].
  destruct k as [|k]; [|apply IH].
  pose proof (startswith_replaced 0 (String c t)) as Hs.
  cbn [Str.replace_from] in *.
  destruct (Str.startswith "_R1" (String c t)).
  - simpl. apply IH.
  - cbn [Str.contains]. by rewrite Hs, IH.
Qed.

(** The partner derived from a path never carries the read-1 marker. *)
Lemma partner_is_not_r1 p : Discovery.is_r1 (Str.replace "_R1" "_R2" p) = false.
Proof.
  apply not_true_is_false. unfold Discovery.is_r1. intros H%contains_basename.
  unfold Str.replace in H. by rewrite contains_replaced in H.
Qed.

End Partner.

(** ** Discovery as a sequence of assignments *)

Section Registrations.

Import Discovery.

Lemma foldl_fmap_entries {A} (g : A → string * list string)
    (step : list (string * list string) → A → list (string * list string))
    (d : list (string * list string)) (l : list A) :
  (∀ d x, step d x = Dict.set d (g x).1 (g x).2) →
  foldl step d l = update d (g <$> l).
Proof.
  intros Hstep. revert d. induction l as [|x l IH]; intros d; [done|].
  rewrite fmap_cons. simpl. rewrite Hstep. apply IH.
Qed.

Lemma pair_r1_files_update fs files :
  pair_r1_files fs files = update [] (r1_entries fs files).
Proof.
  unfold pair_r1_files, r1_entries. apply foldl_fmap_entries.
  intros d r1. unfold register_r1, r1_entry, partner, r1_id. simpl.
  by destruct (exists_ fs _).
Qed.

Lemma discover_samples_update fs dir :
  glob_fastq fs dir ≠ [] →
  discover_samples fs dir = Ok (update [] (registrations fs (glob_fastq fs dir))).
Proof.
  intros Hne. unfold discover_samples.
  destruct (glob_fastq fs dir) as [|f files] eqn:Hg; [done|].
  f_equal. unfold registrations, update. rewrite foldl_app.
  fold (update [] (r1_entries fs (f :: files))).
  rewrite <- pair_r1_files_update.
  by apply foldl_fmap_entries.
Qed.

Lemma discover_samples_raises fs dir e :
  discover_samples fs dir = Raise e →
  glob_fastq fs dir = [] ∧ e = FileNotFoundError ("No FASTQ files found in " +:+ dir).
Proof.
  unfold discover_samples. destruct (glob_fastq fs dir); [|done].
  by intros [= <-].
Qed.

End Registrations.

(** ** Files that derive the same identifier (C3) *)

Section Duplicates.

Import Discovery.

Example twin_registrations :
  registrations twin_listing (glob_fastq twin_listing "/in") =
    [("A", ["/in/a/A.fastq"]); ("A", ["/in/b/A.fastq"])].
Proof. reflexivity. Qed.

Example twin_discovery :
  discover_samples twin_listing "/in" = Ok [("A", ["/in/b/A.fastq"])].
Proof. reflexivity. Qed.

(** C3, as stated, fails: [/in/a/A.fastq] and [/in/b/A.fastq] both
    derive [A]; discovery returns a mapping in which [A] is bound to the
    second file alone, and raises nothing. *)
Lemma duplicate_claim_fails : ¬ duplicate_claim twin_listing "/in".
Proof.
  intros H. destruct H as [e He].
  - rewrite twin_registrations. simpl. intros Hnd.
    apply NoDup_cons in Hnd as [Hnd _]. apply Hnd, list_elem_of_here.
  - rewrite twin_discovery in He. discriminate He.
Qed.

(** C3, amended: discovery reports no duplicate identifier. Whenever a
    read file is found it returns a mapping; its identifiers are pairwise
    distinct, and an identifier is bound to the file set assigned to it
    last, whatever was assigned to it before. Its only error is the one
    for a directory without read files. *)
Theorem duplicate_identifiers_overwrite (fs : list string) (dir : string) :
  (glob_fastq fs dir ≠ [] →
   ∃ samples,
     discover_samples fs dir = Ok samples ∧
     NoDup (Dict.keys samples) ∧
     ∀ sample_id,
       Dict.get samples sample_id =
       last_entry sample_id (registrations fs (glob_fastq fs dir))) ∧
  (∀ e, discover_samples fs dir = Raise e →
        glob_fastq fs dir = [] ∧
        e = FileNotFoundError ("No FASTQ files found in " +:+ dir)).
Proof.
  split; [|apply discover_samples_raises].
  intros Hne. eexists. split; [by apply discover_samples_update|].
  split; [apply NoDup_keys_update, NoDup_nil_2|].
  intros sid. rewrite get_update. by destruct (last_entry sid _).
Qed.

Lemma duplicate_identifiers_overwrite_witness :
  ∃ samples,
    discover_samples twin_listing "/in" = Ok samples ∧
    NoDup (Dict.keys samples) ∧
    ∀ sample_id,
      Dict.get samples sample_id =
      last_entry sample_id (registrations twin_listing (glob_fastq twin_listing "/in")).
Proof.
  apply (proj1 (duplicate_identifiers_overwrite twin_listing "/in")).
  vm_compute. discriminate.
Defined.

End Duplicates.

(** ** Discovery as a partition of the files found (C10) *)

Section Partition.

Import Discovery.

Lemma elem_of_bfilter {A} (p : A → bool) (l : list A) x :
  x ∈ List.filter p l ↔ x ∈ l ∧ p x = true.
Proof. rewrite !list_elem_of_In. apply List.filter_In. Qed.

Lemma NoDup_bfilter {A} (p : A → bool) (l : list A) :
  NoDup l → NoDup (List.filter p l).
Proof. rewrite !NoDup_ListNoDup. apply List.NoDup_filter. Qed.

Lemma concat_singletons {A} (l : list A) : concat ((fun x => [x]) <$> l) = l.
Proof. induction l as [|x l IH]; [done|]. rewrite fmap_cons. simpl. by rewrite IH. Qed.

Lemma elem_of_paired_paths fs r1s x :
  x ∈ paired_paths fs r1s → ∃ r, r ∈ r1s ∧ (x = r ∨ x = partner r).
Proof.
  unfold paired_paths. induction r1s as [|r r1s IH]; [by intros ?%elem_of_nil|].
  rewrite !fmap_cons. simpl. intros [Hx|Hx]%elem_of_app.
  - exists r. split; [apply list_elem_of_here|].
    destruct (exists_ fs (partner r)).
    + apply elem_of_cons in Hx as [->|Hx]; [by left|].
      apply list_elem_of_singleton in Hx as ->. by right.
    + apply list_elem_of_singleton in Hx as ->. by left.
  - destruct (IH Hx) as (r' & Hr' & Hx'). exists r'. split; [|done].
    by apply list_elem_of_further.
Qed.

Lemma partner_neq_r1 r r' : is_r1 r' = true → partner r ≠ r'.
Proof.
  intros Hr' <-. unfold partner in Hr'. by rewrite partner_is_not_r1 in Hr'.
Qed.

Lemma NoDup_paired_paths fs r1s :
  NoDup r1s →
  Forall (fun r => is_r1 r = true) r1s →
  (∀ r r', r ∈ r1s → r' ∈ r1s → partner r ∈ fs → partner r = partner r' → r = r') →
  NoDup (paired_paths fs r1s).
Proof.
  unfold paired_paths. induction r1s as [|r r1s IH]; intros Hnd Hr1 Hinj.
  - constructor.
  - apply NoDup_cons in Hnd as [Hr Hnd]. apply Forall_cons_1 in Hr1 as [Hr1 Hrs].
    rewrite !fmap_cons. simpl. apply NoDup_app. split; [|split].
    + destruct (exists_ fs (partner r)); [|apply NoDup_singleton].
      apply NoDup_cons. split; [|apply NoDup_singleton].
      intros Hx%list_elem_of_singleton. symmetry in Hx.
      by apply (partner_neq_r1 r r).
    + intros x Hx Hx'.
      apply elem_of_paired_paths in Hx' as (r' & Hr' & Hx').
      assert (Hr'1 : is_r1 r' = true) by (rewrite Forall_forall in Hrs; by apply Hrs).
      assert (Hxr : x = r ∨ (x = partner r ∧ partner r ∈ fs)).
      { destruct (exists_ fs (partner r)) eqn:Hex.
        - apply elem_of_cons in Hx as [->|Hx]; [by left|].
          apply list_elem_of_singleton in Hx as ->. right. split; [done|].
          unfold exists_ in Hex. by apply bool_decide_eq_true in Hex.
        - apply list_elem_of_singleton in Hx as ->. by left. }
      destruct Hxr as [->| [-> Hpr]].
      * destruct Hx' as [->|Hx']; [done|].
        symmetry in Hx'. by apply (partner_neq_r1 r' r).
      * destruct Hx' as [Hx'|Hx']; [by apply (partner_neq_r1 r r')|].
        apply Hr. rewrite (Hinj r r'); [done|apply list_elem_of_here| |done|done].
        by apply list_elem_of_further.
    + apply IH; [done|done|]. intros r1 r2 H1 H2.
      apply Hinj; by apply list_elem_of_further.
Qed.

Example crossed_discovery :
  discover_samples crossed_listing "/in" =
    Ok [ ("X", ["/in/X_R1_R2.fastq"; "/in/X_R2_R2.fastq"]);
         ("X_R2", ["/in/X_R2_R1.fastq"; "/in/X_R2_R2.fastq"]) ].
Proof. reflexivity. Qed.


Lemma filter_none_contains (samples : list (string * list string)) f :
  f ∉ concat samples.*2 →
  List.filter (fun e => bool_decide (f ∈ e.2)) samples = [].
Proof.
  induction samples as [|e rest IH]; [done|].
  rewrite fmap_cons. simpl. intros Hf. rewrite elem_of_app in Hf.
  rewrite bool_decide_false by tauto. apply IH. tauto.
Qed.

Lemma exactly_one_contains (samples : list (string * list string)) f :
  NoDup (concat samples.*2) → f ∈ concat samples.*2 →
  length (List.filter (fun e => bool_decide (f ∈ e.2)) samples) = 1.
Proof.
  induction samples as [|e rest IH]; [by intros _ ?%elem_of_nil|].
  rewrite fmap_cons. simpl. intros (_ & Hdis & Hnd)%NoDup_app Hf.
  case_bool_decide as He.
  - simpl. rewrite filter_none_contains; [done|]. by apply Hdis.
  - apply IH; [done|]. apply elem_of_app in Hf as [Hf|Hf]; [done|done].
Qed.

Lemma discovered_paths fs dir samples :
  NoDup (registrations fs (glob_fastq fs dir)).*1 →
  discover_samples fs dir = Ok samples →
  samples = registrations fs (glob_fastq fs dir) ∧
  concat (Dict.values samples) =
    paired_paths fs (List.filter is_r1 (glob_fastq fs dir)) ++
    List.filter
      (fun f => negb (bool_decide
                        (f ∈ paired_paths fs (List.filter is_r1 (glob_fastq fs dir)))))
      (glob_fastq fs dir).
Proof.
  intros Hids Hd.
  assert (Hne : glob_fastq fs dir ≠ []).
  { intros He. unfold discover_samples in Hd. by rewrite He in Hd. }
  rewrite (discover_samples_update _ _ Hne) in Hd. injection Hd as <-.
  rewrite update_fresh by done. rewrite app_nil_l. split; [done|].
  assert (Hp : pair_r1_files fs (glob_fastq fs dir) = r1_entries fs (glob_fastq fs dir)).
  { rewrite pair_r1_files_update. apply update_fresh. simpl.
    unfold registrations in Hids. rewrite fmap_app in Hids.
    by apply NoDup_app in Hids as (? & _ & _). }
  unfold registrations, Dict.values. rewrite Hp, fmap_app, concat_app.
  unfold unpaired_files, Dict.values, r1_entries, paired_paths. f_equal.
  rewrite <- list_fmap_compose.
  apply (concat_singletons (List.filter _ (glob_fastq fs dir))).
Qed.


End Partition.


(** ** Pairing of A_R1.fastq with A_R2.fastq (C9) *)

Section Pairing.

Import Discovery.

(** C9 fails when the path of the directory itself carries the read-1
    marker. The directory [/data/run_R1] holds [A_R1.fastq] and
    [A_R2.fastq] and nothing else; the partner derived for the read-1
    file is [/data/run_R2/A_R2.fastq], which does not exist, and
    discovery returns two single-end samples, [A] and [A_R2], where the
    claim has one paired sample [A]. *)
Theorem marker_in_directory_name_breaks_pairing :
  partner "/data/run_R1/A_R1.fastq" = "/data/run_R2/A_R2.fastq" ∧
  discover_samples ["/data/run_R1/A_R1.fastq"; "/data/run_R1/A_R2.fastq"] "/data/run_R1" =
    Ok [ ("A", ["/data/run_R1/A_R1.fastq"]);
         ("A_R2", ["/data/run_R1/A_R2.fastq"]) ].
Proof. split; reflexivity. Qed.

Lemma app_String c (a b : string) : String c a +:+ b = String c (a +:+ b).
Proof. reflexivity. Qed.

Lemma string_app_assoc (a b c : string) : (a +:+ b) +:+ c = a +:+ (b +:+ c).
Proof. induction a as [|x a IH]; [done|]. rewrite !app_String. by rewrite IH. Qed.

Lemma strip_prefix_app p x : Str.strip_prefix p (p +:+ x) = Some x.
Proof.
  induction p as [|a p IH]; [done|].
  rewrite app_String. simpl. by rewrite Ascii.eqb_refl.
Qed.

Lemma contains_slash_app q rest : Str.contains "/" (q +:+ String "/" rest) = true.
Proof.
  induction q as [|c q IH].
  - change ("" +:+ String "/" rest) with (String "/" rest). by destruct rest.
  - rewrite app_String. cbn [Str.contains]. rewrite IH. apply orb_true_r.
Qed.

Lemma basename_app q name :
  Str.contains "/" name = false → Path.basename (q +:+ String "/" name) = name.
Proof.
  intros Hn. induction q as [|c q IH].
  - change ("" +:+ String "/" name) with (String "/" name). simpl. by rewrite Hn.
  - rewrite app_String. cbn [Path.basename]. by rewrite contains_slash_app.
Qed.

Lemma startswith_marker_slash q rest :
  Str.startswith "_R1" (q +:+ String "/" rest) = Str.startswith "_R1" q.
Proof.
  apply eq_true_iff_eq. rewrite !startswith_spec. split.
  - intros [t Ht].
    destruct q as [|c0 [|c1 [|c2 q]]]; rewrite ?app_String in Ht;
      change ("" +:+ String "/" rest) with (String "/" rest) in Ht;
      try discriminate Ht.
    injection Ht as -> -> -> _. by exists q.
  - intros [t ->]. exists (t +:+ String "/" rest). by rewrite !app_String.
Qed.

Lemma replace_marker_app q rest :
  Str.contains "_R1" q = false →
  Str.replace "_R1" "_R2" (q +:+ String "/" rest) =
  q +:+ String "/" (Str.replace "_R1" "_R2" rest).
Proof.
  unfold Str.replace. induction q as [|c q IH]; intros Hq.
  - change ("" +:+ String "/" rest) with (String "/" rest).
    by destruct rest.
  - pose proof (startswith_marker_slash (String c q) rest) as Hs.
    rewrite !app_String in *. cbn [Str.replace_from]. rewrite Hs.
    cbn [Str.contains] in Hq. apply orb_false_iff in Hq as [-> Hq].
    by rewrite IH.
Qed.

Lemma plain_glob_match d name :
  plain_directory d →
  glob_match d (d +:+ String "/" name) =
    forallb (fun c => negb (String.eqb c "") && negb (hidden c)) (Str.split_slash name)
    && Str.contains ".fastq" (List.last (Str.split_slash name) "").
Proof.
  intros (Hne & Hsl & _). unfold glob_match, Path.join.
  rewrite (proj2 (String.eqb_neq d "") Hne), Hsl.
  change (d +:+ "/" +:+ "") with (d +:+ "/").
  change (d +:+ String "/" name) with (d +:+ ("/" +:+ name)).
  rewrite <- (string_app_assoc d "/" name).
  by rewrite strip_prefix_app.
Qed.

Lemma plain_partner d : plain_directory d → partner (read1 d) = read2 d.
Proof.
  intros (_ & _ & Hm & _). unfold partner, read1, read2.
  change (d +:+ "/A_R1.fastq") with (d +:+ String "/" "A_R1.fastq").
  by rewrite replace_marker_app.
Qed.

Lemma plain_is_r1 d : is_r1 (read1 d) = true ∧ is_r1 (read2 d) = false.
Proof.
  unfold is_r1, read1, read2.
  change (d +:+ "/A_R1.fastq") with (d +:+ String "/" "A_R1.fastq").
  change (d +:+ "/A_R2.fastq") with (d +:+ String "/" "A_R2.fastq").
  by rewrite !basename_app.
Qed.

Lemma read1_neq_read2 d : read1 d ≠ read2 d.
Proof. unfold read1, read2. by intros ?%(inj (String.app d)). Qed.

(** In a plain directory holding [A_R1.fastq] and [A_R2.fastq], whichever
    comes first in the scan, discovery returns the one paired sample [A]
    with the read-1 path before the read-2 path. *)
Lemma pairing_in_plain_directory d fs :
  plain_directory d →
  fs = [read1 d; read2 d] ∨ fs = [read2 d; read1 d] →
  discover_samples fs d = Ok [("A", [read1 d; read2 d])].
Proof.
  intros Hd Hfs.
  assert (Hg : glob_fastq fs d = fs).
  { unfold glob_fastq, read1, read2 in *.
    destruct Hfs as [-> | ->]; simpl;
      change (d +:+ "/A_R1.fastq") with (d +:+ String "/" "A_R1.fastq");
      change (d +:+ "/A_R2.fastq") with (d +:+ String "/" "A_R2.fastq");
      by rewrite !plain_glob_match. }
  destruct (plain_is_r1 d) as [H1 H2].
  pose proof (read1_neq_read2 d) as Hne.
  assert (Hr1 : List.filter is_r1 fs = [read1 d]).
  { destruct Hfs as [-> | ->]; simpl; by rewrite H1, H2. }
  assert (Hex : exists_ fs (partner (read1 d)) = true).
  { rewrite plain_partner by done. apply bool_decide_eq_true.
    destruct Hfs as [-> | ->]; set_solver. }
  assert (Hp : pair_r1_files fs fs = [("A", [read1 d; read2 d])]).
  { unfold pair_r1_files. rewrite Hr1. simpl. unfold register_r1.
    fold (partner (read1 d)). rewrite Hex, plain_partner by done.
    unfold read1 at 1. change (d +:+ "/A_R1.fastq") with (d +:+ String "/" "A_R1.fastq").
    by rewrite basename_app. }
  unfold discover_samples. rewrite Hg.
  destruct fs as [|f fs']; [by destruct Hfs|].
  rewrite Hp. unfold unpaired_files. simpl concat.
  assert (Hu : List.filter (fun f0 => negb (bool_decide (f0 ∈ [read1 d; read2 d]))) (f :: fs') = []).
  { destruct Hfs as [[= -> ->] | [= -> ->]]; simpl;
      rewrite !bool_decide_true by set_solver; done. }
  by rewrite Hu.
Qed.

(** In a plain directory holding [A_R1.fastq] alone, discovery returns
    the one single-end sample [A]. *)
Lemma single_end_in_plain_directory d :
  plain_directory d →
  discover_samples [read1 d] d = Ok [("A", [read1 d])].
Proof.
  intros Hd.
  assert (Hg : glob_fastq [read1 d] d = [read1 d]).
  { unfold glob_fastq, read1. simpl.
    change (d +:+ "/A_R1.fastq") with (d +:+ String "/" "A_R1.fastq").
    by rewrite plain_glob_match. }
  destruct (plain_is_r1 d) as [H1 H2].
  assert (Hex : exists_ [read1 d] (partner (read1 d)) = false).
  { rewrite plain_partner by done. apply bool_decide_eq_false.
    intros Hin%list_elem_of_singleton. by apply (read1_neq_read2 d). }
  unfold discover_samples. rewrite Hg.
  unfold pair_r1_files. simpl. rewrite H1. simpl. unfold register_r1.
  fold (partner (read1 d)). rewrite Hex.
  unfold read1 at 1. change (d +:+ "/A_R1.fastq") with (d +:+ String "/" "A_R1.fastq").
  rewrite basename_app by done. simpl.
  unfold unpaired_files. simpl.
  rewrite bool_decide_true by set_solver. done.
Qed.

End Pairing.

(** * Further properties *)

(** ** The classifier and the refiner steps *)

Section ToolSteps.

Variable run : launch → gmap string file → result Z * gmap string file.

Lemma report_neq_output sid : kraken2_report sid ≠ kraken2_output sid.
Proof.
  unfold kraken2_report, kraken2_output.
  intros H%(inj (String.app "/tmp/"))%(inj (String.app sid)). discriminate H.
Qed.

Lemma run_kraken2_Ok_files (sid : string) (fqs : list string) (db : string)
    (th : Z) (s s' : state) (r : string) :
  run_kraken2 run sid fqs db th s = (Ok r, s') →
  r = kraken2_report sid ∧
  ∃ fs1 f,
    run (Launch (inl (Str.join " " (kraken2_cmd sid fqs db th))) true) (files s) = (Ok 0%Z, fs1) ∧
    fs1 !! kraken2_report sid = Some f ∧ f ≠ [] ∧
    files s' = delete (kraken2_output sid) fs1 ∧
    files s' !! kraken2_report sid = Some f ∧
    files s' !! kraken2_output sid = None.
Proof.
  unfold run_kraken2, run_cmd, bind, get_state, modify. cbv beta iota zeta.
  destruct (run _ (files s)) as [[rc|e0] fs1] eqn:Hrun; cbv beta iota zeta;
    unfold lift, raise, ret; cbv beta iota zeta; [|done]. cbn [andb].
  destruct (rc =? 0)%Z eqn:Hrc; cbn [negb]; [|done].
  apply Z.eqb_eq in Hrc as ->.
  unfold path_exists, getsize_is_zero, os_remove, pass, bind, get_state, modify,
    ret, raise, set_files, set_calls.
  cbn [files calls csv first success failed fst snd].
  destruct (fs1 !! kraken2_report sid) as [f|] eqn:Hrep.
  2:{ rewrite bool_decide_false by (by intros [? ?]). done. }
  rewrite bool_decide_true by eauto. cbn [files]. rewrite Hrep.
  case_bool_decide as Hf; [done|].
  cbn [files].
  assert (Hkeep : delete (kraken2_output sid) fs1 !! kraken2_report sid = Some f).
  { rewrite lookup_delete_ne; [done|]. intros Heq. by apply (report_neq_output sid). }
  destruct (fs1 !! kraken2_output sid) as [o|] eqn:Hout.
  - rewrite bool_decide_true by eauto. cbn [files]. rewrite Hout.
    intros [= <- <-]. split; [done|]. exists fs1, f. cbn [files].
    repeat (split; [done|]). apply lookup_delete_eq.
  - rewrite bool_decide_false by (by intros [? ?]).
    intros [= <- <-]. split; [done|]. exists fs1, f. cbn [files].
    rewrite delete_id in Hkeep by done. rewrite delete_id by done.
    repeat (split; [done|]). done.
Qed.

(** When [run_kraken2] returns, it returns the report path of the sample;
    the classifier has exited with status 0 and left a report that is not
    empty; the report is still there, and the classifier's output file is
    not: the files are those the classifier left, less the output file. *)
Theorem run_kraken2_returns (sid : string) (fqs : list string) (db : string)
    (th : Z) (s s' : state) (r : string) :
  run_kraken2 run sid fqs db th s = (Ok r, s') →
  r = kraken2_report sid ∧
  ∃ fs1 f,
    run (Launch (inl (Str.join " " (kraken2_cmd sid fqs db th))) true) (files s) = (Ok 0%Z, fs1) ∧
    fs1 !! kraken2_report sid = Some f ∧ f ≠ [] ∧
    files s' = delete (kraken2_output sid) fs1 ∧
    files s' !! kraken2_report sid = Some f ∧
    files s' !! kraken2_output sid = None.
Proof. apply run_kraken2_Ok_files. Qed.



End ToolSteps.

Lemma run_kraken2_returns_witness :
  "/tmp/T1.kraken2.report" = kraken2_report "T1" ∧
  ∃ fs1 f,
    cohort_tool
      (Launch (inl (Str.join " " (kraken2_cmd "T1" ["/in/T1.fastq"] "/db" 4))) true)
      (files fresh) = (Ok 0%Z, fs1) ∧
    fs1 !! kraken2_report "T1" = Some f ∧ f ≠ [] ∧
    files (run_kraken2 cohort_tool "T1" ["/in/T1.fastq"] "/db" 4 fresh).2 =
      delete (kraken2_output "T1") fs1 ∧
    files (run_kraken2 cohort_tool "T1" ["/in/T1.fastq"] "/db" 4 fresh).2
      !! kraken2_report "T1" = Some f ∧
    files (run_kraken2 cohort_tool "T1" ["/in/T1.fastq"] "/db" 4 fresh).2
      !! kraken2_output "T1" = None.
Proof.
  apply (run_kraken2_returns cohort_tool "T1" ["/in/T1.fastq"] "/db" 4 fresh).
  vm_compute. reflexivity.
Defined.



(** ** What makes the parser fail *)

Section ParseErrors.

Lemma no_words_of_dtype (fields : list string) :
  Frame.infer fields ≠ Frame.Object →
  fields ≠ [] ∧ Forall (fun s => is_word s = false) fields.
Proof.
  intros H. split; [by intros ->|].
  apply Forall_forall. intros s Hs. destruct (is_word s) eqn:E; [|done].
  exfalso. apply H. apply (infer_text _ s Hs). by apply word_kind.
Qed.

Lemma parse_refined_without_label (header : row) (body : list row) :
  2 ≤ length header →
  Forall (fun r : row => length r = length header) body →
  Frame.position "name" header = None ∨ Frame.position "new_est_reads" header = None →
  parse_report true (header :: body) =
    Raise (KeyError (match Frame.position "name" header with
                     | Some _ => "new_est_reads"
                     | None => "name"
                     end)).
Proof.
  intros Hwide Hw Hl. unfold parse_report, Frame.read_csv_header.
  rewrite filter_not_blank.
  2:{ constructor; [done|]. eapply Forall_impl; [exact Hw|]. intros r Hr. simpl in Hr.
      by rewrite Hr. }
  rewrite read_rows_exact by exact Hw.
  unfold Frame.select. cbn [Frame.frame Frame.columns Frame.positions].
  destruct (Frame.position "name" header) as [i|]; [|done].
  destruct Hl as [Hl|Hl]; [done|]. by rewrite Hl.
Qed.


End ParseErrors.


(** ** The row of a sample *)

Section SampleRow.

Variable run : launch → gmap string file → result Z * gmap string file.


End SampleRow.


Lemma process_sample_removes_artifacts_witness :
  files (process_sample cohort_tool cohort_args "T1" ["/in/T1.fastq"] fresh).2
    !! kraken2_report "T1" = None ∧
  (use_bracken cohort_args = true →
   files (process_sample cohort_tool cohort_args "T1" ["/in/T1.fastq"] fresh).2
     !! Str.replace ".kraken2.report" ".bracken" (kraken2_report "T1") = None).
Proof.
  apply (process_sample_removes_artifacts cohort_tool cohort_args "T1"
           ["/in/T1.fastq"] fresh).
  vm_compute. reflexivity.
Defined.

(** ** What [main] returns *)

Section MainResult.

Variable run : launch → gmap string file → result Z * gmap string file.

(** The checks of the arguments come first, in the order of the code:
    an input directory that is not a directory, then a database directory
    that is not a directory, then a database without [hash.k2d] each end
    [main] with their exception. And whenever [main] raises, whatever the
    cause, nothing has been launched, written to the table or logged as
    failed: no exception of a sample leaves [main]. *)
Theorem main_checks_its_arguments_first (a : args) (fs : list string) (s0 : state) :
  (input_dir a ∉ dirs s0 →
   main run a fs s0 =
     (Raise (NotADirectoryError ("Input directory not found: " +:+ input_dir a)), s0)) ∧
  (input_dir a ∈ dirs s0 → kraken_db a ∉ dirs s0 →
   main run a fs s0 =
     (Raise (NotADirectoryError ("Kraken2 DB directory not found: " +:+ kraken_db a)),
      s0)) ∧
  (input_dir a ∈ dirs s0 → kraken_db a ∈ dirs s0 →
   Path.join (kraken_db a) "hash.k2d" ∉ fs →
   Path.join (kraken_db a) "hash.k2d" ∉ dirs s0 →
   main run a fs s0 =
     (Raise (FileNotFoundError "Kraken2 DB appears invalid (missing hash.k2d)"), s0)) ∧
  (∀ e, (main run a fs s0).1 = Raise e → (main run a fs s0).2 = s0).
Proof.
  unfold main, validate_inputs, isdir, bind, get_state, ret, raise, pass,
    Discovery.exists_.
  cbv beta iota zeta. repeat split.
  - intros H. by rewrite (bool_decide_false _ H).
  - intros H1 H2. rewrite (bool_decide_true _ H1). cbn [negb]. cbv beta iota zeta.
    by rewrite (bool_decide_false _ H2).
  - intros H1 H2 H3 H4. rewrite (bool_decide_true _ H1). cbn [negb]. cbv beta iota zeta.
    rewrite (bool_decide_true _ H2). cbn [negb]. cbv beta iota zeta.
    by rewrite (bool_decide_false _ H3), (bool_decide_false _ H4).
  - intros e.
    case_bool_decide; cbn [negb]; cbv beta iota zeta; [|done].
    case_bool_decide; cbn [negb]; cbv beta iota zeta; [|done].
    destruct (negb _); cbv beta iota zeta; [done|].
    destruct (Discovery.discover_samples fs (input_dir a)) as [samples|e']; [|done].
    pose proof (classify_samples_returns run a samples
                  (set_success (fun _ => 0) (set_first true s0))) as Hr.
    destruct (classify_samples run a samples _) as [[[]|e'] s']; [done|].
    discriminate Hr.
Qed.


End MainResult.


Lemma main_checks_its_arguments_first_witness :
  main silent_tool (Args "/nowhere" "/out" "/db" 4 false 150) [] fresh =
    (Raise (NotADirectoryError "Input directory not found: /nowhere"), fresh).
Proof.
  apply (proj1 (main_checks_its_arguments_first silent_tool
                  (Args "/nowhere" "/out" "/db" 4 false 150) [] fresh)).
  compute_done.
Defined.

(** ** The processes launched for a sample *)

Section Launches.

Variable run : launch → gmap string file → result Z * gmap string file.

Lemma same_calls_refl s : same_calls s s.
Proof. done. Qed.

Lemma same_calls_trans s1 s2 s3 : same_calls s1 s2 → same_calls s2 s3 → same_calls s1 s3.
Proof. unfold same_calls. congruence. Qed.

Lemma bind_calls {A B} (m : M A) (k : A → M B) s :
  (∀ a, steps same_calls (k a)) → calls (bind m k s).2 = calls (m s).2.
Proof.
  intros Hk. unfold bind. destruct (m s) as [[a|e] s1]; [apply Hk|done].
Qed.

Lemma try_except_calls (m : M unit) (h : exn → M unit) s :
  (∀ e, steps same_calls (h e)) → calls (try_except m h s).2 = calls (m s).2.
Proof.
  intros Hh. unfold try_except. destruct (m s) as [[[]|e] s1]; [done|apply Hh].
Qed.

Lemma same_calls_parse p ub : steps same_calls (parse_species_abundance p ub).
Proof. apply steps_parse; [exact same_calls_refl|exact same_calls_trans]. Qed.

Lemma same_calls_cleanup a c : steps same_calls (cleanup a c).
Proof.
  apply steps_cleanup;
    first [exact same_calls_refl | exact same_calls_trans | by intros].
Qed.

Lemma same_calls_after_tools a sample_id rtu :
  steps same_calls
    (bind (parse_species_abundance rtu (use_bracken a))
       (fun df =>
          bind (lift (Frame.transpose_series "name" "reads" df))
            (fun df_t =>
               ret (Classified (kraken2_report sample_id) rtu
                      (Frame.assign "SampleID" sample_id df_t))))).
Proof.
  apply steps_bind; [exact same_calls_trans|apply same_calls_parse|]. intros df.
  apply steps_bind; [exact same_calls_trans| |].
  - apply steps_lift; exact same_calls_refl.
  - intros dft. apply steps_ret. exact same_calls_refl.
Qed.

Lemma classify_calls a x s :
  calls (classify run a x.1 x.2 s).2 =
  calls s ++
  kraken2_launch a x ::
  (if use_bracken a
   then match (run_kraken2 run x.1 x.2 (kraken_db a) (threads a) s).1 with
        | Ok _ => [bracken_launch a x]
        | Raise _ => []
        end
   else []).
Proof.
  unfold classify, bind at 1.
  pose proof (run_kraken2_calls run x.1 x.2 (kraken_db a) (threads a) s) as Hk.
  destruct (run_kraken2 run x.1 x.2 (kraken_db a) (threads a) s) as [[kr|e] s1] eqn:Hr;
    cbn [fst snd] in *.
  2:{ rewrite Hk. unfold kraken2_launch. by destruct (use_bracken a). }
  apply run_kraken2_path in Hr as ->.
  rewrite bind_calls by (intros rtu; apply same_calls_after_tools).
  destruct (use_bracken a).
  - rewrite run_bracken_calls, Hk. by rewrite <- app_assoc.
  - unfold ret. cbn [snd]. by rewrite Hk.
Qed.

Lemma iteration_calls a x s :
  calls (iteration run a x s).2 = calls (classify run a x.1 x.2 s).2.
Proof.
  unfold iteration. rewrite try_except_calls by (by intros e s1).
  unfold process_sample. rewrite bind_calls; [done|].
  intros c. apply steps_bind; [exact same_calls_trans| |].
  - by intros s1.
  - intros _. apply same_calls_cleanup.
Qed.

(** For every sample [main] launches the classifier exactly once, with
    the command of [kraken2_cmd]; when refinement is on and the classifier
    step has returned, it launches the refiner once, after it, on the
    sample's classifier report. It launches nothing else, whatever the
    outcome of the sample. *)
Theorem launches_of_a_sample (a : args) (x : string * list string) (s : state) :
  calls (iteration run a x s).2 =
  calls s ++
  kraken2_launch a x ::
  (if use_bracken a
   then match (run_kraken2 run x.1 x.2 (kraken_db a) (threads a) s).1 with
        | Ok _ => [bracken_launch a x]
        | Raise _ => []
        end
   else []).
Proof. rewrite iteration_calls. apply classify_calls. Qed.

(** Without refinement a run launches one classifier process for each
    sample, in the order of the samples, and no other process; a sample
    that fails does not change what is launched for the samples after
    it. *)
Theorem one_classifier_launch_per_sample (a : args) (samples : Dict.t (list string))
    (s : state) :
  use_bracken a = false →
  calls (classify_samples run a samples s).2 = calls s ++ (kraken2_launch a <$> samples).
Proof.
  intros Hub. revert s. induction samples as [|x rest IH]; intros s.
  - simpl. by rewrite app_nil_r.
  - rewrite classify_samples_step, IH, iteration_calls, classify_calls, Hub, fmap_cons.
    by rewrite <- app_assoc.
Qed.

End Launches.

Lemma one_classifier_launch_per_sample_witness :
  calls (classify_samples scenario_tool scenario_args scenario_samples fresh).2 =
  calls fresh ++ (kraken2_launch scenario_args <$> scenario_samples).
Proof.
  exact (one_classifier_launch_per_sample scenario_tool scenario_args
           scenario_samples fresh eq_refl).
Defined.

(** ** The samples that discovery returns *)

Section DiscoveredSamples.

Import Discovery.

Lemma Forall_set {V} (P : string * V → Prop) (d : list (string * V)) k v :
  Forall P d → P (k, v) → Forall P (Dict.set d k v).
Proof.
  intros Hd Hkv. induction Hd as [|[k0 v0] d H0 Hd IH]; simpl.
  - by constructor.
  - destruct (String.eqb_spec k0 k) as [->|_]; by constructor.
Qed.

Lemma Forall_update {V} (P : string * V → Prop) (d entries : list (string * V)) :
  Forall P d → Forall P entries → Forall P (update d entries).
Proof.
  intros Hd He. revert d Hd. induction He as [|[k v] rest Hkv He IH]; intros d Hd; [done|].
  simpl. apply IH. by apply Forall_set.
Qed.

Lemma unpaired_in_files d files f : f ∈ unpaired_files d files → f ∈ files.
Proof. unfold unpaired_files. by intros [? _]%elem_of_bfilter. Qed.

Lemma registrations_are_samples fs files :
  Forall (sample_of fs files) (registrations fs files).
Proof.
  unfold registrations. apply Forall_app. split.
  - unfold r1_entries. apply Forall_fmap, Forall_forall.
    intros r1 [Hin Hr1]%elem_of_bfilter. exists r1. split; [done|].
    unfold r1_entry, exists_. simpl. case_bool_decide as Hp.
    + right. done.
    + left. split; [done|]. right. done.
  - apply Forall_fmap, Forall_forall. intros f Hf%unpaired_in_files.
    exists f. split; [done|]. left. split; [done|]. by left.
Qed.

Lemma discovered_update fs dir samples :
  discover_samples fs dir = Ok samples →
  glob_fastq fs dir ≠ [] ∧
  samples = update [] (registrations fs (glob_fastq fs dir)).
Proof.
  intros Hd.
  assert (Hne : glob_fastq fs dir ≠ []).
  { intros He. unfold discover_samples in Hd. by rewrite He in Hd. }
  split; [done|]. rewrite (discover_samples_update _ _ Hne) in Hd. by injection Hd.
Qed.

Lemma discovered_samples_formed fs dir samples :
  discover_samples fs dir = Ok samples →
  Forall (sample_of fs (glob_fastq fs dir)) samples.
Proof.
  intros [_ ->]%discovered_update.
  apply Forall_update; [constructor|apply registrations_are_samples].
Qed.

(** Every sample that discovery returns is formed from a read file found:
    either that file alone, under the identifier derived from it, or a
    read-1 file followed by its derived partner, which exists, under the
    read-1 identifier. A sample so has one path or two, read 1 before
    read 2, and a read-1 file stands alone only under its single-end
    identifier or when its partner does not exist. *)
Theorem discovered_samples_are_formed_from_files (fs : list string) (dir : string)
    (samples : Dict.t (list string)) :
  discover_samples fs dir = Ok samples →
  Forall (sample_of fs (glob_fastq fs dir)) samples.
Proof. apply discovered_samples_formed. Qed.

End DiscoveredSamples.

Lemma discovered_samples_are_formed_from_files_witness :
  Forall (sample_of mixed_listing (Discovery.glob_fastq mixed_listing "/in")) mixed_samples.
Proof.
  exact (discovered_samples_are_formed_from_files mixed_listing "/in" mixed_samples eq_refl).
Defined.

(** ** How many samples *)

Section SampleCount.

Import Discovery.

Lemma first_paths_cons (e : string * list string) d :
  first_paths (e :: d) = hd "" e.2 :: first_paths d.
Proof. reflexivity. Qed.

Lemma first_paths_set_elem (d : list (string * list string)) k v x :
  x ∈ first_paths (Dict.set d k v) → x ∈ first_paths d ∨ x = hd "" v.
Proof.
  induction d as [|[k0 v0] d IH]; cbn [Dict.set].
  - rewrite first_paths_cons. intros [->|[]%elem_of_nil]%elem_of_cons. by right.
  - destruct (String.eqb_spec k0 k) as [->|_]; rewrite !first_paths_cons;
      cbn [snd]; intros [->|Hx]%elem_of_cons.
    + by right.
    + left. by apply list_elem_of_further.
    + left. apply list_elem_of_here.
    + destruct (IH Hx) as [Hd| ->]; [left; by apply list_elem_of_further|by right].
Qed.

Lemma NoDup_first_paths_set (d : list (string * list string)) k v :
  NoDup (first_paths d) → hd "" v ∉ first_paths d →
  NoDup (first_paths (Dict.set d k v)).
Proof.
  induction d as [|[k0 v0] d IH]; cbn [Dict.set].
  - intros _ _. rewrite first_paths_cons. apply NoDup_singleton.
  - rewrite first_paths_cons. cbn [snd].
    intros [Hv0 Hd]%NoDup_cons Hv%not_elem_of_cons.
    destruct Hv as [Hne Hv].
    destruct (String.eqb_spec k0 k) as [->|_]; rewrite first_paths_cons; cbn [snd];
      apply NoDup_cons.
    + done.
    + split; [|by apply IH].
      intros [Hx|Hx]%first_paths_set_elem; [by apply Hv0|]. by apply Hne.
Qed.

Lemma first_paths_update (d entries : list (string * list string)) :
  NoDup (first_paths d ++ first_paths entries) →
  NoDup (first_paths (update d entries)) ∧
  ∀ x, x ∈ first_paths (update d entries) → x ∈ first_paths d ++ first_paths entries.
Proof.
  revert d. induction entries as [|[k v] rest IH]; intros d Hnd.
  - simpl. rewrite app_nil_r in *. done.
  - rewrite first_paths_cons in *. cbn [snd] in *.
    apply NoDup_app in Hnd as (Hd & Hdis & [Hv Hrest]%NoDup_cons).
    assert (Hvd : hd "" v ∉ first_paths d).
    { intros Hin. apply (Hdis _ Hin). apply list_elem_of_here. }
    destruct (IH (Dict.set d k v)) as [Hnd' Hsub].
    { apply NoDup_app. split; [by apply NoDup_first_paths_set|]. split; [|done].
      intros x [Hx| ->]%first_paths_set_elem; [|done].
      intros Hx'. apply (Hdis _ Hx). by apply list_elem_of_further. }
    split; [exact Hnd'|]. intros x Hx%Hsub.
    apply elem_of_app in Hx as [[Hx| ->]%first_paths_set_elem|Hx]; apply elem_of_app.
    + by left.
    + right. apply list_elem_of_here.
    + right. by apply list_elem_of_further.
Qed.

Lemma first_paths_r1_entries fs files :
  first_paths (r1_entries fs files) = List.filter is_r1 files.
Proof.
  unfold first_paths, r1_entries. rewrite <- list_fmap_compose.
  rewrite <- (list_fmap_id (List.filter is_r1 files)) at 2.
  apply list_fmap_ext. intros _ r _. unfold r1_entry. simpl.
  by destruct (exists_ fs (partner r)).
Qed.

Lemma first_paths_singles files :
  first_paths (single_entry <$> files) = files.
Proof.
  unfold first_paths. rewrite <- list_fmap_compose.
  rewrite <- (list_fmap_id files) at 2. by apply list_fmap_ext.
Qed.

Lemma first_path_is_used (d : list (string * list string)) x :
  Forall (fun e => e.2 ≠ []) d → x ∈ first_paths d → x ∈ concat (Dict.values d).
Proof.
  unfold first_paths, Dict.values. induction 1 as [|[k v] d Hv Hd IH].
  - by intros ?%elem_of_nil.
  - rewrite !fmap_cons. simpl. intros [->|Hx]%elem_of_cons; apply elem_of_app.
    + left. destruct v; [done|]. apply list_elem_of_here.
    + right. by apply IH.
Qed.

Lemma set_nonempty {V} (d : list (string * V)) k v : Dict.set d k v ≠ [].
Proof. destruct d as [|[k0 v0] d]; simpl; [done|]. by destruct (String.eqb k0 k). Qed.

Lemma update_nonempty {V} (d entries : list (string * V)) :
  d ≠ [] ∨ entries ≠ [] → update d entries ≠ [].
Proof.
  revert d. induction entries as [|[k v] rest IH]; intros d Hne.
  - simpl. by destruct Hne.
  - simpl. apply IH. left. apply set_nonempty.
Qed.

(** Discovery returns at least one sample and, when the scan lists no
    path twice, no more samples than read files found: every sample
    opens with a read file found, and no file opens two samples. *)
Theorem sample_count_bounds (fs : list string) (dir : string)
    (samples : Dict.t (list string)) :
  NoDup fs →
  discover_samples fs dir = Ok samples →
  1 ≤ length samples ∧
  length samples ≤ length (glob_fastq fs dir) ∧
  NoDup (first_paths samples) ∧
  ∀ f, f ∈ first_paths samples → f ∈ glob_fastq fs dir.
Proof.
  intros Hfs [Hne ->]%discovered_update.
  set (files := glob_fastq fs dir) in *.
  assert (Hfiles : NoDup files) by (by apply NoDup_bfilter).
  unfold registrations, update. rewrite foldl_app.
  fold (update [] (r1_entries fs files)). rewrite <- pair_r1_files_update.
  set (d1 := pair_r1_files fs files).
  fold (update d1 (single_entry <$> unpaired_files d1 files)).
  destruct (first_paths_update [] (r1_entries fs files)) as [Hnd1 Hsub1].
  { simpl. rewrite first_paths_r1_entries. by apply NoDup_bfilter. }
  rewrite <- pair_r1_files_update in Hnd1, Hsub1. fold d1 in Hnd1, Hsub1.
  assert (Hpaths : Forall (fun e : string * list string => e.2 ≠ []) d1).
  { unfold d1. rewrite pair_r1_files_update.
    apply Forall_update; [constructor|].
    unfold r1_entries. apply Forall_fmap, Forall_forall. intros r _.
    unfold r1_entry. simpl. by destruct (exists_ fs (partner r)). }
  destruct (first_paths_update d1 (single_entry <$> unpaired_files d1 files))
    as [Hnd Hsub].
  { rewrite first_paths_singles. apply NoDup_app. split; [done|]. split.
    - intros x Hx [_ Hout]%elem_of_bfilter.
      apply negb_true_iff, bool_decide_eq_false in Hout.
      apply Hout. by apply first_path_is_used.
    - by apply NoDup_bfilter. }
  assert (Hin : ∀ f, f ∈ first_paths (update d1 (single_entry <$> unpaired_files d1 files)) →
                     f ∈ files).
  { intros f Hf%Hsub. rewrite first_paths_singles in Hf.
    apply elem_of_app in Hf as [Hf|Hf]; [|by eapply unpaired_in_files].
    apply Hsub1 in Hf. simpl in Hf. rewrite first_paths_r1_entries in Hf.
    by apply elem_of_bfilter in Hf as [? _]. }
  split; [|split; [|split; [exact Hnd|exact Hin]]].
  - assert (Hs : update d1 (single_entry <$> unpaired_files d1 files) ≠ []).
    { apply update_nonempty.
      destruct (List.filter is_r1 files) as [|r rs] eqn:Hr1.
      - right. unfold d1, pair_r1_files. rewrite Hr1. simpl.
        unfold unpaired_files. simpl.
        destruct files as [|f files']; [done|]. simpl. done.
      - left. unfold d1. rewrite pair_r1_files_update. apply update_nonempty.
        right. unfold r1_entries. by rewrite Hr1. }
    destruct (update d1 _); [done|]. simpl. lia.
  - rewrite <- (length_fmap (fun e : string * list string => hd "" e.2)).
    apply submseteq_length, NoDup_submseteq; [exact Hnd|exact Hin].
Qed.

End SampleCount.

Lemma sample_count_bounds_witness :
  1 ≤ length mixed_samples ∧
  length mixed_samples ≤ length (Discovery.glob_fastq mixed_listing "/in") ∧
  NoDup (first_paths mixed_samples) ∧
  ∀ f, f ∈ first_paths mixed_samples → f ∈ Discovery.glob_fastq mixed_listing "/in".
Proof.
  apply (sample_count_bounds mixed_listing "/in" mixed_samples); [|reflexivity].
  compute_done.
Defined.

(** ** Identifiers and the paths of the artifacts *)

Section Identifiers.

Import Discovery.

Lemma contains_slash_String c X :
  Str.contains "/" (String c X) = Ascii.eqb c "/" || Str.contains "/" X.
Proof.
  cbn [Str.contains]. f_equal. apply eq_true_iff_eq.
  rewrite startswith_spec, Ascii.eqb_eq. split.
  - intros [t Ht]. by injection Ht.
  - intros ->. by exists X.
Qed.

Lemma contains_slash_append a b :
  Str.contains "/" (a +:+ b) = Str.contains "/" a || Str.contains "/" b.
Proof.
  induction a as [|c a IH].
  - change ("" +:+ b) with b. by destruct b.
  - rewrite app_String, !contains_slash_String, IH. by rewrite orb_assoc.
Qed.

Lemma no_slash_basename p : Str.contains "/" (Path.basename p) = false.
Proof.
  induction p as [|c t IH]; [done|]. cbn [Path.basename].
  destruct (Str.contains "/" t) eqn:Ht; [done|].
  destruct (Ascii.eqb c "/") eqn:Hc; [done|].
  by rewrite contains_slash_String, Hc, Ht.
Qed.

Lemma no_slash_split_first sep s :
  Str.contains "/" s = false → Str.contains "/" (Str.split_first sep s) = false.
Proof.
  induction s as [|c t IH]; [done|]. cbn [Str.split_first].
  rewrite contains_slash_String. intros [Hc Ht]%orb_false_iff.
  destruct (Str.startswith sep (String c t)); [done|].
  by rewrite contains_slash_String, Hc, IH.
Qed.

Lemma no_slash_paths s :
  Str.contains "/" s = false → Path.basename s = s ∧ Path.dir_part s = "".
Proof.
  destruct s as [|c t]; [done|]. rewrite contains_slash_String.
  intros [Hc Ht]%orb_false_iff. cbn [Path.basename Path.dir_part].
  by rewrite Ht, Hc.
Qed.

Lemma split_last_dot_append s r e :
  Path.split_last_dot s = Some (r, e) → s = r +:+ e.
Proof.
  revert r e. induction s as [|c t IH]; intros r e; [done|].
  cbn [Path.split_last_dot].
  destruct (Path.split_last_dot t) as [[r' e']|].
  - intros [= <- <-]. rewrite app_String. f_equal. by apply IH.
  - destruct (Ascii.eqb c "."); [|done]. by intros [= <- <-].
Qed.

Lemma no_slash_splitext s :
  Str.contains "/" s = false → Str.contains "/" (Path.splitext s).1 = false.
Proof.
  intros Hs. destruct (no_slash_paths s Hs) as [Hb Hd].
  unfold Path.splitext. rewrite Hb, Hd.
  destruct (Path.split_last_dot s) as [[r e]|] eqn:Hsp; [|done].
  destruct (Path.all_dots r); [done|]. simpl.
  apply split_last_dot_append in Hsp. subst s.
  rewrite contains_slash_append in Hs. by apply orb_false_iff in Hs as [? _].
Qed.

Lemma no_slash_r1_id f : Str.contains "/" (r1_id f) = false.
Proof. apply no_slash_split_first, no_slash_basename. Qed.

Lemma no_slash_single_id f : Str.contains "/" (single_id f) = false.
Proof. unfold single_id. by do 2 apply no_slash_splitext; apply no_slash_basename. Qed.

(** No identifier that discovery derives contains a path separator, so
    the classifier report of every sample is a file directly under
    [/tmp], named by the identifier followed by [.kraken2.report]. *)
Theorem identifiers_have_no_separator (fs : list string) (dir : string)
    (samples : Dict.t (list string)) :
  discover_samples fs dir = Ok samples →
  Forall (fun e : string * list string =>
            Str.contains "/" e.1 = false ∧
            Path.dir_part (kraken2_report e.1) = "/tmp/" ∧
            Path.basename (kraken2_report e.1) = e.1 +:+ ".kraken2.report")
    samples.
Proof.
  intros [_ ->]%discovered_update.
  assert (Hid : Forall (fun e : string * list string => Str.contains "/" e.1 = false)
                  (update [] (registrations fs (glob_fastq fs dir)))).
  { apply Forall_update; [constructor|]. unfold registrations, r1_entries.
    apply Forall_app. split; apply Forall_fmap, Forall_forall; intros f _; simpl.
    - apply no_slash_r1_id.
    - apply no_slash_single_id. }
  eapply Forall_impl; [exact Hid|]. intros [id paths] Hno. cbn [fst] in *.
  split; [done|].
  assert (Hb : Path.basename (kraken2_report id) = id +:+ ".kraken2.report").
  { unfold kraken2_report.
    change ("/tmp/" +:+ id +:+ ".kraken2.report")
      with ("/tmp" +:+ String "/" (id +:+ ".kraken2.report")).
    apply basename_app. by rewrite contains_slash_append, Hno. }
  split; [|exact Hb].
  clear Hb. unfold kraken2_report.
  assert (Hd : ∀ name, Str.contains "/" name = false →
                       Path.dir_part ("/tmp/" +:+ name) = "/tmp/").
  { intros name Hn.
    change ("/tmp/" +:+ name) with (String "/" (String "t" (String "m" (String "p"
                                      (String "/" name))))).
    cbn [Path.dir_part]. rewrite !contains_slash_String, Hn. done. }
  rewrite Hd; [done|]. by rewrite contains_slash_append, Hno.
Qed.

End Identifiers.

Lemma identifiers_have_no_separator_witness :
  Forall (fun e : string * list string =>
            Str.contains "/" e.1 = false ∧
            Path.dir_part (kraken2_report e.1) = "/tmp/" ∧
            Path.basename (kraken2_report e.1) = e.1 +:+ ".kraken2.report")
    mixed_samples.
Proof.
  exact (identifiers_have_no_separator mixed_listing "/in" mixed_samples eq_refl).
Defined.

(** ** The flags of the classifier command *)

Section Flags.

Import Discovery.

Lemma option_differs (opt : string) (sid db : string) (th : Z) (fqs : list string) :
  Str.startswith "--p" opt = true ∨ Str.startswith "--g" opt = true →
  opt ∈ kraken2_cmd sid fqs db th →
  opt ∈ (if bool_decide (length fqs = 2) then ["--paired"] else []) ++
        (if existsb (Str.endswith ".gz") fqs then ["--gzip-compressed"] else []).
Proof.
  intros Hopt. unfold kraken2_cmd. cbv zeta.
  rewrite !elem_of_app, !elem_of_cons, elem_of_nil, list_elem_of_fmap.
  intros [H|H]; [exfalso|].
  - destruct H as [->|[->|[->|[->|[->|[->|[->|[->|[]]]]]]]]];
      by destruct Hopt as [Hopt|Hopt]; vm_compute in Hopt.
  - destruct H as [H|[H|(f & -> & _)]]; [by left|by right|exfalso].
    by destruct Hopt as [Hopt|Hopt]; vm_compute in Hopt.
Qed.

Lemma paired_flag sid fqs db th :
  "--paired" ∈ kraken2_cmd sid fqs db th ↔ length fqs = 2.
Proof.
  split.
  - intros H%option_differs; [|by left].
    apply elem_of_app in H as [H|H].
    + case_bool_decide; [done|]. by apply elem_of_nil in H.
    + destruct (existsb _ fqs); [|by apply elem_of_nil in H].
      apply list_elem_of_singleton in H. discriminate H.
  - intros Hlen. unfold kraken2_cmd. cbv zeta.
    rewrite bool_decide_true by done.
    apply elem_of_app. right. apply elem_of_app. left. apply list_elem_of_here.
Qed.

Lemma gzip_flag sid fqs db th :
  "--gzip-compressed" ∈ kraken2_cmd sid fqs db th ↔
  ∃ f, f ∈ fqs ∧ Str.endswith ".gz" f = true.
Proof.
  assert (Hex : (∃ f, f ∈ fqs ∧ Str.endswith ".gz" f = true) ↔
                existsb (Str.endswith ".gz") fqs = true).
  { rewrite existsb_exists. by setoid_rewrite list_elem_of_In. }
  rewrite Hex. split.
  - intros H%option_differs; [|by right].
    apply elem_of_app in H as [H|H].
    + case_bool_decide; [|by apply elem_of_nil in H].
      apply list_elem_of_singleton in H. discriminate H.
    + destruct (existsb _ fqs); [done|]. by apply elem_of_nil in H.
  - intros Hgz. unfold kraken2_cmd. cbv zeta. rewrite Hgz.
    apply elem_of_app. right. apply elem_of_app. right.
    apply elem_of_app. left. apply list_elem_of_here.
Qed.

(** For every sample that discovery returns, the classifier command has
    the option [--paired] exactly when the sample is a read-1 file with
    its existing partner, and the option [--gzip-compressed] exactly when
    one of its paths ends in [.gz]; the database path, the identifier and
    the read paths cannot add or hide either option in the list. *)
Theorem classifier_flags_follow_the_sample (fs : list string) (dir : string)
    (samples : Dict.t (list string)) (e : string * list string) (db : string) (th : Z) :
  discover_samples fs dir = Ok samples →
  e ∈ samples →
  ("--paired" ∈ kraken2_cmd e.1 e.2 db th ↔
   ∃ f, e.2 = [f; partner f] ∧ is_r1 f = true ∧ partner f ∈ fs) ∧
  ("--gzip-compressed" ∈ kraken2_cmd e.1 e.2 db th ↔
   ∃ f, f ∈ e.2 ∧ Str.endswith ".gz" f = true).
Proof.
  intros Hd He. split; [|apply gzip_flag].
  rewrite paired_flag.
  apply discovered_samples_formed in Hd. rewrite Forall_forall in Hd.
  destruct (Hd e He) as (f & _ & [[-> _]|(-> & _ & Hr1 & Hp)]).
  - split; [done|]. by intros (f' & [=] & _).
  - split; [|done]. intros _. by exists f.
Qed.

End Flags.

Lemma classifier_flags_follow_the_sample_witness :
  ("--paired" ∈ kraken2_cmd "A" ["/in/A_R1.fastq.gz"; "/in/A_R2.fastq.gz"] "/db" 4 ↔
   ∃ f, ["/in/A_R1.fastq.gz"; "/in/A_R2.fastq.gz"] = [f; partner f] ∧
        Discovery.is_r1 f = true ∧ partner f ∈ mixed_listing) ∧
  ("--gzip-compressed" ∈ kraken2_cmd "A" ["/in/A_R1.fastq.gz"; "/in/A_R2.fastq.gz"] "/db" 4 ↔
   ∃ f, f ∈ ["/in/A_R1.fastq.gz"; "/in/A_R2.fastq.gz"] ∧ Str.endswith ".gz" f = true).
Proof.
  apply (classifier_flags_follow_the_sample mixed_listing "/in" mixed_samples
           ("A", ["/in/A_R1.fastq.gz"; "/in/A_R2.fastq.gz"]) "/db" 4 eq_refl).
  apply list_elem_of_here.
Defined.

(** ** After the row is written *)

Section AfterWriting.

Variable run : launch → gmap string file → result Z * gmap string file.

Lemma same_files_parse p ub : steps same_files (parse_species_abundance p ub).
Proof. apply steps_parse; [done|]. unfold same_files. congruence. Qed.

Lemma classify_plain_files a x s c s1 :
  use_bracken a = false →
  classify run a x.1 x.2 s = (Ok c, s1) →
  kraken_report c = kraken2_report x.1 ∧
  ∃ f, files s1 !! kraken2_report x.1 = Some f.
Proof.
  intros Hub Hc. unfold classify in Hc. rewrite Hub in Hc.
  apply bind_Ok in Hc as (kr & t1 & Hkr & Hc).
  apply bind_Ok in Hc as (rtu & t2 & [= <- <-] & Hc).
  apply bind_Ok in Hc as (df & t3 & Hp & Hc).
  apply bind_Ok in Hc as (dft & t4 & Ht & Hc).
  injection Hc as <- <-.
  apply run_kraken2_Ok_files in Hkr as (-> & fs1 & f & _ & _ & _ & _ & Hf & _).
  split; [done|]. exists f.
  pose proof (same_files_parse (kraken2_report x.1) false t1) as H3.
  rewrite Hp in H3. unfold same_files in H3. simpl in H3.
  destruct (Frame.transpose_series "name" "reads" df); simpl in Ht;
    injection Ht as _ <-; by rewrite H3.
Qed.

(** Without refinement the count and the log agree: a sample whose
    classification raised nothing ends its [try] block without exception,
    so it is counted as a success and adds no line to the failure log,
    and its classifier report is deleted. *)
Theorem plain_success_is_never_logged (a : args) (x : string * list string)
    (s : state) (f : Frame.t) :
  use_bracken a = false →
  outcome run a x s = Ok f →
  (process_sample run a x.1 x.2 s).1 = Ok tt ∧
  failed (iteration run a x s).2 = failed s ∧
  success (iteration run a x s).2 = S (success s) ∧
  files (iteration run a x s).2 !! kraken2_report x.1 = None.
Proof.
  intros Hub Ho. unfold outcome in Ho.
  destruct (classify run a x.1 x.2 s) as [[c|e] s1] eqn:Hc; [|done].
  destruct (classify_plain_files _ _ _ _ _ Hub Hc) as (Hkr & r & Hr).
  pose proof (keeps_classify run a x.1 x.2 s) as Hk. rewrite Hc in Hk.
  destruct Hk as (_ & _ & Hsucc & Hfail). simpl in Hsucc, Hfail.
  unfold iteration, try_except, process_sample, bind. rewrite Hc.
  unfold append_to_csv, cleanup, os_remove, pass, bind, get_state, modify.
  rewrite Hub, Hkr. cbn [fst snd files set_csv set_first set_success success failed].
  rewrite Hr. simpl. rewrite Hsucc, Hfail. repeat (split; [done|]).
  apply lookup_delete_eq.
Qed.

(** With refinement a sample can be counted and logged at once: when its
    classification has returned but the classifier report is no longer
    there, the row is written and the success counted, then the removal
    of the report raises [FileNotFoundError], which is logged as a failure
    of the sample. *)
Theorem counted_and_logged (a : args) (x : string * list string) (s s1 : state)
    (c : classified) :
  classify run a x.1 x.2 s = (Ok c, s1) →
  files s1 !! kraken_report c = None →
  csv (iteration run a x s).2 = csv s ++ Frame.to_csv_rows (first s) (df_t c) ∧
  success (iteration run a x s).2 = S (success s) ∧
  failed (iteration run a x s).2 =
    failed s ++ [(x.1, FileNotFoundError (kraken_report c))].
Proof.
  intros Hc Hgone.
  pose proof (keeps_classify run a x.1 x.2 s) as Hk. rewrite Hc in Hk.
  destruct Hk as (Hcsv & Hfirst & Hsucc & Hfail). simpl in Hcsv, Hfirst, Hsucc, Hfail.
  unfold iteration, try_except, process_sample, bind. rewrite Hc.
  unfold append_to_csv, cleanup, os_remove, raise, bind, get_state, modify.
  cbn [fst snd files set_csv set_first set_success set_failed csv first success failed].
  rewrite Hgone. cbn [fst snd files set_csv set_first set_success set_failed
                      csv first success failed].
  by rewrite Hcsv, Hfirst, Hsucc, Hfail.
Qed.

End AfterWriting.

Lemma plain_success_is_never_logged_witness :
  (process_sample scenario_tool scenario_args "S1" ["/in/S1.fastq"] fresh).1 = Ok tt ∧
  failed (iteration scenario_tool scenario_args ("S1", ["/in/S1.fastq"]) fresh).2
    = failed fresh ∧
  success (iteration scenario_tool scenario_args ("S1", ["/in/S1.fastq"]) fresh).2
    = S (success fresh) ∧
  files (iteration scenario_tool scenario_args ("S1", ["/in/S1.fastq"]) fresh).2
    !! kraken2_report "S1" = None.
Proof.
  apply (plain_success_is_never_logged scenario_tool scenario_args
           ("S1", ["/in/S1.fastq"]) fresh
           (Frame.Make ["Ecoli"; "Bsubtilis"; "SampleID"] [["10"; "0"; "S1"]]) eq_refl).
  vm_compute. reflexivity.
Defined.

Lemma counted_and_logged_witness :
  csv (iteration careless_tool cohort_args ("T1", ["/in/T1.fastq"]) fresh).2 =
    csv fresh ++
    Frame.to_csv_rows (first fresh) (Frame.Make ["Ecoli"; "SampleID"] [["10"; "T1"]]) ∧
  success (iteration careless_tool cohort_args ("T1", ["/in/T1.fastq"]) fresh).2 =
    S (success fresh) ∧
  failed (iteration careless_tool cohort_args ("T1", ["/in/T1.fastq"]) fresh).2 =
    failed fresh ++ [("T1", FileNotFoundError "/tmp/T1.kraken2.report")].
Proof.
  apply (counted_and_logged careless_tool cohort_args ("T1", ["/in/T1.fastq"]) fresh
           (classify careless_tool cohort_args "T1" ["/in/T1.fastq"] fresh).2
           (Classified "/tmp/T1.kraken2.report" "/tmp/T1.bracken"
              (Frame.Make ["Ecoli"; "SampleID"] [["10"; "T1"]]))).
  - vm_compute. reflexivity.
  - vm_compute. reflexivity.
Defined.
